(** * tenacity: the retry controller and its stop, wait and reject policies

    A shallow embedding of [tenacity.py].  Python integers are [Z]; a
    float is the rational ([Q]) it denotes, and every float operation is
    rounded by the environment's rounding.  The wall clock, the random
    generator and the limit of [time.sleep] belong to the environment,
    the first two read through cursors kept in the world state.
    The wrapped operation is a script: the outcome of its i-th run.
    Callables supplied by the user other than the operation (predicates,
    hooks) are assumed to return normally. *)

From Stdlib Require Import ZArith QArith Qround Qabs List Bool Lia Lqa.
Import ListNotations.
Local Open Scope Z_scope.

(** ** Exceptions and classes *)

(** [isinstance e c] is Python's [isinstance]; [Exception] is the class
    that [except Exception] tests against. *)
Class PyExc (E Cls : Type) := {
  isinstance : E -> Cls -> bool;
  Exception : Cls
}.

(** [MAX_WAIT]: the fallback taken where [sys.maxint] does not exist. *)
Definition MAX_WAIT : Z := 1073741823.

(** ** Stop strategies *)

Inductive stop_strategy :=
| stop_after_attempt (max_attempt_number : Z)
| stop_after_delay (max_delay : Z).

Definition stop_call (self : stop_strategy)
    (previous_attempt_number delay_since_first_attempt_ms : Z) : bool :=
  match self with
  | stop_after_attempt max_attempt_number =>
      previous_attempt_number >=? max_attempt_number
  | stop_after_delay max_delay =>
      delay_since_first_attempt_ms >=? max_delay
  end.

(** ** Wait strategies *)

Inductive wait_strategy :=
| wait_fixed (wait : Z)
| wait_random (min max : Z)
| wait_incrementing (start increment max : Z)
| wait_exponential (multiplier max : Z).

(** [wait_none] is the subclass of [wait_fixed] built with 0. *)
Definition wait_none : wait_strategy := wait_fixed 0.

Definition EXP_BASE : Z := 2.

Definition wait_fixed_call (wait previous_attempt_number
    delay_since_first_attempt_ms : Z) : Z :=
  wait.

Definition wait_incrementing_call (start increment max
    previous_attempt_number delay_since_first_attempt_ms : Z) : Z :=
  let result := start + increment * (previous_attempt_number - 1) in
  let result := if result >? max then max else result in
  let result := if result <? 0 then 0 else result in
  result.

(** [EXP_BASE ** previous_attempt_number] on unbounded integers; the
    attempt number is at least 1, so the power is an integer. *)
Definition wait_exponential_call (multiplier max
    previous_attempt_number delay_since_first_attempt_ms : Z) : Z :=
  let exp := EXP_BASE ^ previous_attempt_number in
  let result := multiplier * exp in
  let result := if result >? max then max else result in
  let result := if result <? 0 then 0 else result in
  result.

(** [random.randint a b]: an integer N with a <= N <= b, chosen by the
    generator's draw; [None] is the ValueError of an empty range. *)
Definition randint (a b draw : Z) : option Z :=
  if a >? b then None else Some (a + draw mod (b - a + 1)).

Definition wait_random_call (min max previous_attempt_number
    delay_since_first_attempt_ms draw : Z) : option Z :=
  randint min max draw.

(** ** Floats *)

(** [sleep + max(0, jitter)] with a float [jitter]: [max] gives the
    integer 0 unless the jitter is positive, and adding that 0 changes
    nothing; a positive jitter makes the sum a float sum, rounded by
    [fl], of the operands as floats. *)
Definition add_max0 (fl : Q -> Q) (sleep jitter : Q) : Q :=
  if Qle_bool jitter 0 then sleep else fl (fl sleep + jitter)%Q.

(** What the theorems below need of a rounding to floats; both hold of
    IEEE 754 binary64 with round-to-nearest, Python's [float]: rounding
    keeps the order, and the integers up to 2^53 are floats. *)
Definition float_laws (fl : Q -> Q) : Prop :=
  (forall x y : Q, (x <= y)%Q -> (fl x <= fl y)%Q) /\
  (forall n : Z, Z.abs n <= 2 ^ 53 -> (fl (inject_Z n) == inject_Z n)%Q).

(** The integer nearest to [x], the even one of two equally near. *)
Definition round_half_even (x : Q) : Z :=
  let f := Qfloor x in
  match (x - inject_Z f ?= 1 # 2)%Q with
  | Lt => f
  | Gt => f + 1
  | Eq => if Z.even f then f else f + 1
  end.

(** Rounding to binary64, nearest and ties to even, for magnitudes in
    the normal range: [e] is the binary exponent of [x], and the 53-bit
    significand is rounded at 2^(e - 52). *)
Definition binary64 (x : Q) : Q :=
  if Qeq_bool x 0 then 0%Q
  else
    let a := Qabs x in
    let e0 := Z.log2 (Qnum a) - Z.log2 (Zpos (Qden a)) in
    let e := if Qle_bool (2 ^ e0) a then e0 else e0 - 1 in
    let ulp := (2 ^ (e - 52))%Q in
    let r := Qred (inject_Z (round_half_even (a / ulp)) * ulp) in
    if Qle_bool 0 x then r else (- r)%Q.

Section Controller.

Context {V E Cls : Type} `{PyExc E Cls}.

(** ** Attempts *)

(** [value] is the returned value, or the captured exception of
    [sys.exc_info()]; the flag [has_exception] is set together with it. *)
Inductive attempt_value :=
| Success (v : V)
| Failure (e : E).

Record Attempt := mkAttempt {
  value : attempt_value;
  attempt_number : Z
}.

Definition has_exception (self : Attempt) : bool :=
  match value self with
  | Failure _ => true
  | Success _ => false
  end.

(** What can propagate out of the controller: [Reraise e] is an
    exception [e] of the operation, of whatever class (a [RetryError]
    that the operation itself raises is such an [e]); [RetryError a] is
    the [RetryError] that the controller builds around its attempt [a];
    [TypeError] is the [raise] of a value that is no exception;
    [EmptyRange] is what [random.randint] raises on an empty range;
    [NegativeSleep] and [SleepOverflow] are what [time.sleep] raises on
    a negative duration and on one beyond its limit. *)
Inductive Raised :=
| Reraise (e : E)
| RetryError (last_attempt : Attempt)
| TypeError
| EmptyRange
| NegativeSleep
| SleepOverflow.

Inductive Result (A : Type) :=
| Ok (a : A)
| Raise (r : Raised).
Arguments Ok {A} a.
Arguments Raise {A} r.

(** [Attempt.get] *)
Definition Attempt_get (self : Attempt) (wrap_exception : bool) : Result V :=
  match value self with
  | Failure e =>
      if wrap_exception then Raise (RetryError self) else Raise (Reraise e)
  | Success v => Ok v
  end.

(** ** The world: oracles, cursors and the log *)

(** [sleep_max] is the longest duration, in ms, that [time.sleep] takes
    (on CPython 3, 2^63 ns); every platform takes [MAX_WAIT] ms. *)
Record Env := mkEnv {
  now_ms : nat -> Z;          (* int(round(time.time() * 1000)), i-th reading *)
  random_random : nat -> Q;   (* random.random(), i-th draw *)
  random_int : nat -> Z;      (* the draw behind random.randint *)
  float_round : Q -> Q;       (* the float nearest to a real *)
  sleep_max : Q;
  sleep_max_ok : Qle_bool (inject_Z MAX_WAIT) sleep_max = true
}.

Inductive Event :=
| EvInvoke (attempt_number : Z)
| EvRetryOnException
| EvRetryOnResult
| EvSleep (ms : Q)
| EvHook (attempt_number : Z).

Record World := mkWorld {
  invocations : nat;
  clock_reads : nat;
  draws : nat;
  log : list Event
}.

Definition World0 : World := mkWorld 0 0 0 [].

Definition record (ev : Event) (w : World) : World :=
  mkWorld (invocations w) (clock_reads w) (draws w) (log w ++ [ev]).

(** ** A state and error monad *)

Definition M (A : Type) : Type := World -> Result A * World.

Definition ret {A} (a : A) : M A := fun w => (Ok a, w).

Definition raise {A} (r : Raised) : M A := fun w => (Raise r, w).

Definition bind {A B} (c : M A) (k : A -> M B) : M B :=
  fun w =>
    match c w with
    | (Ok a, w') => k a w'
    | (Raise r, w') => (Raise r, w')
    end.

Definition lift {A} (r : Result A) : M A := fun w => (r, w).

Definition tell (ev : Event) : M unit := fun w => (Ok tt, record ev w).

Notation "x <- c ;; k" := (bind c (fun x => k))
  (at level 61, c at next level, right associativity).
Notation "c ;; k" := (bind c (fun _ => k))
  (at level 61, right associativity).

Definition bump_clock (w : World) : World :=
  mkWorld (invocations w) (S (clock_reads w)) (draws w) (log w).

Definition bump_draws (w : World) : World :=
  mkWorld (invocations w) (clock_reads w) (S (draws w)) (log w).

Definition bump_invocations (w : World) : World :=
  mkWorld (S (invocations w)) (clock_reads w) (draws w) (log w).

Variable env : Env.

(** [int(round(time.time() * 1000))] *)
Definition time_ms : M Z :=
  fun w => (Ok (now_ms env (clock_reads w)), bump_clock w).

Definition random_unit : M Q :=
  fun w => (Ok (random_random env (draws w)), bump_draws w).

Definition random_draw : M Z :=
  fun w => (Ok (random_int env (draws w)), bump_draws w).

(** [time.sleep(ms / 1000.0)]: a negative duration is refused, and so
    is one past the limit (there the division or the sleep overflows). *)
Definition time_sleep (ms : Q) : M unit :=
  if Qle_bool 0 ms then
    if Qle_bool ms (sleep_max env) then tell (EvSleep ms)
    else raise SleepOverflow
  else raise NegativeSleep.

Definition wait_call (self : wait_strategy)
    (previous_attempt_number delay_since_first_attempt_ms : Z) : M Z :=
  match self with
  | wait_fixed wait =>
      ret (wait_fixed_call wait previous_attempt_number
             delay_since_first_attempt_ms)
  | wait_random min max =>
      draw <- random_draw ;;
      match wait_random_call min max previous_attempt_number
              delay_since_first_attempt_ms draw with
      | Some n => ret n
      | None => raise EmptyRange
      end
  | wait_incrementing start increment max =>
      ret (wait_incrementing_call start increment max
             previous_attempt_number delay_since_first_attempt_ms)
  | wait_exponential multiplier max =>
      ret (wait_exponential_call multiplier max previous_attempt_number
             delay_since_first_attempt_ms)
  end.

(** ** Reject strategies *)

Definition _never_reject {A : Type} (result : A) : bool := false.

Definition _always_reject {A : Type} (result : A) : bool := true.

Definition _retry_if_exception_of_type (retryable_types : list Cls)
    : E -> bool :=
  fun exception => existsb (isinstance exception) retryable_types.

Record _MaybeReject := mk_MaybeReject {
  retry_on_exception : option (E -> bool);
  retry_on_result : option (V -> bool)
}.

(** [_MaybeReject.__call__]; each predicate call is logged. *)
Definition MaybeReject_call (self : _MaybeReject) (attempt : Attempt)
    : M bool :=
  let reject := false in
  match value attempt with
  | Failure e =>
      match retry_on_exception self with
      | Some p => tell EvRetryOnException ;; ret (reject || p e)
      | None => ret reject
      end
  | Success v =>
      match retry_on_result self with
      | Some p => tell EvRetryOnResult ;; ret (reject || p v)
      | None => ret reject
      end
  end.

(** The [retry_on_exception] argument: a predicate or a tuple of classes. *)
Inductive exception_filter :=
| ExcCallable (p : E -> bool)
| ExcTypes (retryable_types : list Cls).

Definition _select_reject_strategy
    (retry_on_exception : option exception_filter)
    (retry_on_result : option (V -> bool)) : _MaybeReject :=
  let retry_on_exception :=
    match retry_on_exception with
    | None => _always_reject
    | Some (ExcTypes retryable_types) =>
        _retry_if_exception_of_type retryable_types
    | Some (ExcCallable p) => p
    end in
  let retry_on_result :=
    match retry_on_result with
    | None => _never_reject
    | Some p => p
    end in
  mk_MaybeReject (Some retry_on_exception) (Some retry_on_result).

(** ** The controller *)

(** An observer hook: called with the attempt number, result discarded. *)
Definition Hook : Type := Z -> World -> World.

Record Retrying := mkRetrying {
  stop : option stop_strategy;
  wait : option wait_strategy;
  should_reject : _MaybeReject;
  _wrap_exception : bool;
  _before_attempts : option Hook;
  _after_attempts : option Hook;
  _wait_jitter_max : option Q
}.

(** [Retrying.__init__] *)
Definition Retrying_init
    (stop : option stop_strategy) (wait : option wait_strategy)
    (retry_on_exception : option exception_filter)
    (retry_on_result : option (V -> bool))
    (wrap_exception : bool) (wait_jitter_max : option Q)
    (before_attempts after_attempts : option Hook) : Retrying :=
  mkRetrying stop wait
    (_select_reject_strategy retry_on_exception retry_on_result)
    wrap_exception before_attempts after_attempts wait_jitter_max.

(** The operation: what its i-th run (from 0) does. *)
Inductive Outcome :=
| Returns (v : V)
| Raises (e : E).

Definition Operation : Type := nat -> Outcome.

Definition run_hook (h : option Hook) (attempt_number : Z) : M unit :=
  match h with
  | Some f => fun w => (Ok tt, f attempt_number w)
  | None => ret tt
  end.

(** The [try] block: only instances of [Exception] are captured. *)
Definition invoke (fn : Operation) (attempt_number : Z) : M Attempt :=
  fun w =>
    let w' := record (EvInvoke attempt_number) (bump_invocations w) in
    match fn (invocations w) with
    | Returns v => (Ok (mkAttempt (Success v) attempt_number), w')
    | Raises e =>
        if isinstance e Exception
        then (Ok (mkAttempt (Failure e) attempt_number), w')
        else (Raise (Reraise e), w')
    end.

Definition should_stop (self : Retrying)
    (attempt_number delay_since_first_attempt_ms : Z) : bool :=
  match stop self with
  | Some s => stop_call s attempt_number delay_since_first_attempt_ms
  | None => false
  end.

(** What is raised when the stop strategy signals; [raise attempt.get()]
    would raise a TypeError if [get] returned. *)
Definition stop_error (self : Retrying) (attempt : Attempt) : Raised :=
  if negb (_wrap_exception self) && has_exception attempt then
    match Attempt_get attempt false with
    | Raise r => r
    | Ok _ => TypeError
    end
  else RetryError attempt.

Definition base_wait (self : Retrying)
    (attempt_number delay_since_first_attempt_ms : Z) : M Q :=
  match wait self with
  | Some ws =>
      n <- wait_call ws attempt_number delay_since_first_attempt_ms ;;
      ret (inject_Z n)
  | None => ret 0%Q
  end.

(** [if self._wait_jitter_max:] is false for [None] and for zero.  The
    product is a float product: the bound is taken as a float and the
    result is rounded. *)
Definition add_jitter (self : Retrying) (sleep : Q) : M Q :=
  match _wait_jitter_max self with
  | Some jitter_max =>
      if Qeq_bool jitter_max 0 then ret sleep
      else
        u <- random_unit ;;
        let jitter :=
          float_round env (u * float_round env jitter_max)%Q in
        ret (add_max0 (float_round env) sleep jitter)
  | None => ret sleep
  end.

Definition compute_sleep (self : Retrying)
    (attempt_number delay_since_first_attempt_ms : Z) : M Q :=
  sleep <- base_wait self attempt_number delay_since_first_attempt_ms ;;
  add_jitter self sleep.

(** The loop body after a rejected attempt. *)
Definition on_rejected (self : Retrying) (start_time attempt_number : Z)
    (attempt : Attempt) : M unit :=
  run_hook (_after_attempts self) attempt_number ;;
  now <- time_ms ;;
  let delay_since_first_attempt_ms := now - start_time in
  if should_stop self attempt_number delay_since_first_attempt_ms then
    raise (stop_error self attempt)
  else
    sleep <- compute_sleep self attempt_number
               delay_since_first_attempt_ms ;;
    time_sleep sleep.

(** One pass of [while True]: [Some v] returns [v], [None] loops. *)
Definition iteration (self : Retrying) (fn : Operation)
    (start_time attempt_number : Z) : M (option V) :=
  run_hook (_before_attempts self) attempt_number ;;
  attempt <- invoke fn attempt_number ;;
  rejected <- MaybeReject_call (should_reject self) attempt ;;
  if negb rejected then
    v <- lift (Attempt_get attempt (_wrap_exception self)) ;;
    ret (Some v)
  else
    on_rejected self start_time attempt_number attempt ;;
    ret None.

Fixpoint loop (self : Retrying) (fn : Operation) (start_time : Z)
    (fuel : nat) (attempt_number : Z) (w : World)
    : option (Result V * World) :=
  match fuel with
  | O => None
  | S fuel' =>
      match iteration self fn start_time attempt_number w with
      | (Ok (Some v), w') => Some (Ok v, w')
      | (Ok None, w') =>
          loop self fn start_time fuel' (attempt_number + 1) w'
      | (Raise r, w') => Some (Raise r, w')
      end
  end.

(** [Retrying.call]; [None] means the fuel ran out. *)
Definition call (self : Retrying) (fn : Operation) (fuel : nat)
    (w : World) : option (Result V * World) :=
  match time_ms w with
  | (Ok start_time, w') => loop self fn start_time fuel 1 w'
  | (Raise r, w') => Some (Raise r, w')
  end.

End Controller.

Arguments Ok {V E A} a.
Arguments Raise {V E A} r.

(** ** The decorator *)

Section Decorator.

Context {V E Cls : Type} `{PyExc E Cls}.

(** [Retrying()]: every argument of [__init__] at its default. *)
Definition Retrying_defaults : Retrying (V:=V) (E:=E) :=
  Retrying_init None (Some wait_none) None None false None None None.

(** [wrapped_f] of [wrap_simple], what a bare [@retry] makes of [f]:
    a call of [f] through [Retrying()]. *)
Definition wrap_simple (env : Env) (f : Operation)
    : nat -> World -> option (Result V * World) :=
  call env Retrying_defaults f.

(** [wrapped_f] of [wrap], what [@retry(...)] makes of [f], for the
    controller that the decorator's arguments build. *)
Definition wrap (env : Env) (self : Retrying) (f : Operation)
    : nat -> World -> option (Result V * World) :=
  call env self f.

End Decorator.

(** A wait strategy that neither draws nor can fail, with delays that
    [time.sleep] takes on every platform: no strategy, a [wait_fixed]
    between 0 and [MAX_WAIT], and a [wait_incrementing] or
    [wait_exponential] whose [max] is at most [MAX_WAIT]. *)
Definition steady_wait (ws : option wait_strategy) : bool :=
  match ws with
  | None => true
  | Some (wait_fixed wait) => (0 <=? wait) && (wait <=? MAX_WAIT)
  | Some (wait_random _ _) => false
  | Some (wait_incrementing _ _ max) => max <=? MAX_WAIT
  | Some (wait_exponential _ max) => max <=? MAX_WAIT
  end.

(** The sleeps of a log, in order. *)
Fixpoint sleeps (l : list Event) : list Q :=
  match l with
  | [] => []
  | EvSleep ms :: l' => ms :: sleeps l'
  | _ :: l' => sleeps l'
  end.

(** ** A concrete exception hierarchy, clock and generator for examples *)

Inductive PyClass :=
| BaseException
| ExceptionBase
| KeyboardInterrupt
| IOError
| ErrorX
| FatalError.

(** [issubclass c d] for the classes above: [IOError] and [ErrorX] derive
    from [Exception]; [KeyboardInterrupt] and [FatalError] derive from
    [BaseException] only. *)
Definition issubclass (c d : PyClass) : bool :=
  match d, c with
  | BaseException, _ => true
  | ExceptionBase, (ExceptionBase | IOError | ErrorX) => true
  | KeyboardInterrupt, KeyboardInterrupt => true
  | IOError, IOError => true
  | ErrorX, ErrorX => true
  | FatalError, FatalError => true
  | _, _ => false
  end.

(** An exception instance is identified by its class. *)
#[export] Instance PyClass_exc : PyExc PyClass PyClass := {
  isinstance := issubclass;
  Exception := ExceptionBase
}.

(** A clock that advances 10 ms per reading; every [random.random()] is
    one half; the i-th integer draw is i; float operations are exact;
    [time.sleep] takes up to 2^63 ns. *)
Definition env0 : Env :=
  mkEnv (fun i => 1000 + 10 * Z.of_nat i) (fun _ => 1 # 2) Z.of_nat
    (fun x => x) (9223372036854775807 # 1000000) eq_refl.

(** The same with binary64 floats. *)
Definition env64 : Env :=
  mkEnv (fun i => 1000 + 10 * Z.of_nat i) (fun _ => 1 # 2) Z.of_nat
    binary64 (9223372036854775807 # 1000000) eq_refl.

(** A fixed wait of 2^53 + 1 ms, which is no float, with up to 1 ms of
    jitter. *)
Definition fixed_2p53_jitter_1 : Retrying (V:=Z) (E:=PyClass) :=
  Retrying_init None (Some (wait_fixed 9007199254740993)) None None false
    (Some 1%Q) None None.

(** Scripted operations over the classes above, returning numbers. *)
Definition raises_twice_then (e : PyClass) (v : Z)
    : Operation (V:=Z) (E:=PyClass) :=
  fun i => match i with
           | O | S O => Raises e
           | _ => Returns v
           end.

Definition always_raises (e : PyClass) : Operation (V:=Z) (E:=PyClass) :=
  fun _ => Raises e.

Definition always_returns (v : Z) : Operation (V:=Z) (E:=PyClass) :=
  fun _ => Returns v.

(** A controller that retries while the result is 0, at most twice. *)
Definition retry_while_zero : Retrying (V:=Z) (E:=PyClass) :=
  Retrying_init (Some (stop_after_attempt 2)) (Some wait_none)
    None (Some (Z.eqb 0)) false None None None.

(** A controller that retries on [IOError] only and wraps what it raises. *)
Definition retry_io_wrapped : Retrying (V:=Z) (E:=PyClass) :=
  Retrying_init (Some (stop_after_attempt 3)) (Some wait_none)
    (Some (ExcTypes [IOError])) None true None None None.

(** A fixed wait of 100 ms with up to 50 ms of jitter. *)
Definition fixed_100_jitter_50 : Retrying (V:=Z) (E:=PyClass) :=
  Retrying_init None (Some (wait_fixed 100)) None None false (Some 50%Q)
    None None.

(** A hook that writes the attempt number to the log. *)
Definition log_hook : Hook := fun k w => record (EvHook k) w.

(** An operation that raises [e] on its first [n] runs and then returns
    [v]. *)
Definition raises_n_then (n : nat) (e : PyClass) (v : Z)
    : Operation (V:=Z) (E:=PyClass) :=
  fun i => if (i <? n)%nat then Raises e else Returns v.

(** The delay a steady wait strategy asks for. *)
Definition steady_delay (ws : option wait_strategy)
    (previous_attempt_number delay_since_first_attempt_ms : Z) : Z :=
  match ws with
  | None => 0
  | Some (wait_fixed wait) =>
      wait_fixed_call wait previous_attempt_number
        delay_since_first_attempt_ms
  | Some (wait_random _ _) => 0
  | Some (wait_incrementing start increment max) =>
      wait_incrementing_call start increment max previous_attempt_number
        delay_since_first_attempt_ms
  | Some (wait_exponential multiplier max) =>
      wait_exponential_call multiplier max previous_attempt_number
        delay_since_first_attempt_ms
  end.

(** What [n] failed attempts in a row leave in the log of a controller
    without hooks: run, verdict and sleep for the attempts 1 to [n]. *)
Definition failed_attempts_log (env : Env) (ws : option wait_strategy)
    (start : Z) (n : nat) : list Event :=
  flat_map
    (fun i =>
       [EvInvoke (Z.of_nat (S i)); EvRetryOnException;
        EvSleep (inject_Z (steady_delay ws (Z.of_nat (S i))
                             (now_ms env (S i) - start)))])
    (seq 0 n).

(** An exponential wait of 100 * 2^k ms, capped at 1000 ms. *)
Definition backoff_1000 : option wait_strategy :=
  Some (wait_exponential 100 1000).

(** * Properties *)

(** ** Wait strategies *)

Lemma clamp_max_min (result max : Z) :
  (let r := if result >? max then max else result in
   if r <? 0 then 0 else r) = Z.max 0 (Z.min result max).
Proof.
  cbv zeta.
  destruct (Z.gtb_spec result max).
  - destruct (Z.ltb_spec max 0); lia.
  - destruct (Z.ltb_spec result 0); lia.
Qed.

Lemma wait_incrementing_call_eq (s i m k d : Z) :
  wait_incrementing_call s i m k d = Z.max 0 (Z.min (s + i * (k - 1)) m).
Proof. unfold wait_incrementing_call. apply clamp_max_min. Qed.

Lemma wait_exponential_call_eq (mult m k d : Z) :
  wait_exponential_call mult m k d = Z.max 0 (Z.min (mult * 2 ^ k) m).
Proof. unfold wait_exponential_call, EXP_BASE. apply clamp_max_min. Qed.

Lemma randint_range (a b draw : Z) :
  match randint a b draw with
  | Some n => a <= n <= b
  | None => b < a
  end.
Proof.
  unfold randint. destruct (Z.gtb_spec a b); [lia|].
  pose proof (Z.mod_pos_bound draw (b - a + 1)). lia.
Qed.

(** C5, as stated, fails: a fixed wait built with a negative duration
    returns that negative duration for a valid attempt number and elapsed
    time; so does a random wait over a negative range. *)
Lemma wait_fixed_negative_not_clamped :
  ~ (forall (ws : wait_strategy) (k d : Z) (w w' : World) (n : Z),
        1 <= k -> 0 <= d ->
        wait_call (V:=unit) (E:=PyClass) env0 ws k d w = (Ok n, w') ->
        0 <= n).
Proof.
  intros claim.
  specialize (claim (wait_fixed (-5)) 1 0 World0 World0 (-5)).
  assert (0 <= -5) by (apply claim; [lia | lia | reflexivity]). lia.
Qed.

(** C5, amended: [wait_none] returns 0; [wait_incrementing] and
    [wait_exponential] return a non-negative delay for all integer
    parameters, attempt numbers and elapsed times; [wait_fixed] returns
    its configured duration as it is, and [wait_random] a value between
    its bounds (or fails on an empty range), so these two are
    non-negative exactly when the configured duration, respectively the
    value drawn, is. *)
Theorem wait_strategies_delay (a b s i m mult k d draw : Z) :
  wait_fixed_call 0 k d = 0 /\
  wait_none = wait_fixed 0 /\
  0 <= wait_incrementing_call s i m k d /\
  0 <= wait_exponential_call mult m k d /\
  wait_fixed_call a k d = a /\
  match wait_random_call a b k d draw with
  | Some n => a <= n <= b
  | None => b < a
  end.
Proof.
  rewrite wait_incrementing_call_eq, wait_exponential_call_eq.
  repeat split; try reflexivity; try lia.
  apply randint_range.
Qed.

(** C6, as stated, fails for a negative [max]: start 0, increment 100,
    max -5 at attempt 1 gives 0, and the claimed formula gives -5. *)
Lemma wait_incrementing_negative_max :
  ~ (forall s i m k d : Z,
        1 <= k ->
        wait_incrementing_call s i m k d
        = Z.min (Z.max 0 (s + i * (k - 1))) m).
Proof.
  intros claim. specialize (claim 0 100 (-5) 1 0).
  assert (Hk : 1 <= 1) by lia. specialize (claim Hk).
  vm_compute in claim. discriminate claim.
Qed.

(** C6, amended: for all integers s, i, m, every attempt number k and
    every elapsed time, [wait_incrementing] returns exactly
    max(0, min(s + i*(k-1), m)); this is min(max(0, s + i*(k-1)), m)
    whenever m >= 0. *)
Theorem wait_incrementing_formula (s i m k d : Z) :
  wait_incrementing_call s i m k d = Z.max 0 (Z.min (s + i * (k - 1)) m) /\
  (0 <= m ->
   wait_incrementing_call s i m k d = Z.min (Z.max 0 (s + i * (k - 1))) m).
Proof.
  rewrite wait_incrementing_call_eq. split; [reflexivity | lia].
Qed.

(** C6 at start 50, increment 100, max 220, attempt 3. *)
Lemma wait_incrementing_formula_witness :
  wait_incrementing_call 50 100 220 3 0 = 220 /\
  wait_incrementing_call 50 100 220 3 0
  = Z.min (Z.max 0 (50 + 100 * (3 - 1))) 220.
Proof.
  split; [reflexivity |].
  apply (proj2 (wait_incrementing_formula 50 100 220 3 0)). lia.
Defined.

(** C7, as stated, fails for a negative multiplier: multiplier -1,
    max 10 at attempt 1 gives 0, and the claimed formula gives -2. *)
Lemma wait_exponential_negative_multiplier :
  ~ (forall mult m k d : Z,
        1 <= k ->
        wait_exponential_call mult m k d = Z.min (mult * 2 ^ k) m).
Proof.
  intros claim. specialize (claim (-1) 10 1 0).
  assert (Hk : 1 <= 1) by lia. specialize (claim Hk).
  vm_compute in claim. discriminate claim.
Qed.

(** C7, amended: for all integers mult, m, every attempt number k >= 1
    and every elapsed time, [wait_exponential] returns exactly
    max(0, min(mult * 2^k, m)), computed on unbounded integers; this is
    min(mult * 2^k, m) whenever mult >= 0 and m >= 0, and it is m itself
    once mult * 2^k has reached m >= 0, which for mult >= 1 happens at
    the latest at k = m. *)
Theorem wait_exponential_formula (mult m k d : Z) :
  1 <= k ->
  wait_exponential_call mult m k d = Z.max 0 (Z.min (mult * 2 ^ k) m) /\
  (0 <= mult -> 0 <= m ->
   wait_exponential_call mult m k d = Z.min (mult * 2 ^ k) m) /\
  (0 <= m <= mult * 2 ^ k -> wait_exponential_call mult m k d = m) /\
  (1 <= mult -> 0 <= m <= k -> wait_exponential_call mult m k d = m).
Proof.
  intros Hk. rewrite wait_exponential_call_eq.
  assert (Hpow : 0 < 2 ^ k) by (apply Z.pow_pos_nonneg; lia).
  repeat split.
  - intros Hmult Hm. assert (0 <= mult * 2 ^ k) by nia. lia.
  - intros Hm. lia.
  - intros Hmult Hm.
    assert (k < 2 ^ k) by (apply Z.pow_gt_lin_r; lia).
    assert (m <= mult * 2 ^ k) by nia. lia.
Qed.

(** C7 at multiplier 3, max 20, attempt 4, and at attempt 40 with max 40. *)
Lemma wait_exponential_formula_witness :
  wait_exponential_call 3 20 4 0 = 20 /\
  wait_exponential_call 3 20 4 0 = Z.min (3 * 2 ^ 4) 20 /\
  wait_exponential_call 1 40 40 0 = 40.
Proof.
  assert (H4 : 1 <= 4) by lia.
  destruct (wait_exponential_formula 3 20 4 0 H4) as (_ & Hmin & Hsat & _).
  assert (H40 : 1 <= 40) by lia.
  destruct (wait_exponential_formula 1 40 40 0 H40) as (_ & _ & _ & Hlarge).
  split; [apply Hsat; vm_compute; split; discriminate |].
  split; [apply Hmin; lia | apply Hlarge; lia].
Defined.

(** ** Stop strategies *)

Lemma stop_after_attempt_spec (n k d : Z) :
  stop_call (stop_after_attempt n) k d = true <-> n <= k.
Proof. simpl. rewrite Z.geb_le. reflexivity. Qed.

Lemma stop_after_delay_spec (limit k d : Z) :
  stop_call (stop_after_delay limit) k d = true <-> limit <= d.
Proof. simpl. rewrite Z.geb_le. reflexivity. Qed.

(** ** The controller *)

Ltac run :=
  cbv -[isinstance Exception now_ms random_random random_int float_round
       sleep_max time_sleep].

Section ControllerProperties.

Context {V E Cls : Type} `{PyExc E Cls}.
Variable env : Env.

(** [time.sleep] takes every duration from 0 to [MAX_WAIT] ms. *)
Lemma time_sleep_accepts (n : Z) (w : World) :
  0 <= n <= MAX_WAIT ->
  time_sleep (V:=V) (E:=E) env (inject_Z n) w
  = (Ok tt, record (EvSleep (inject_Z n)) w).
Proof.
  intros [Hn Hmax]. unfold time_sleep.
  assert (H0 : Qle_bool 0 (inject_Z n) = true).
  { apply Qle_bool_iff. change 0%Q with (inject_Z 0).
    rewrite <- Zle_Qle. exact Hn. }
  assert (H1 : Qle_bool (inject_Z n) (sleep_max env) = true).
  { apply Qle_bool_iff.
    apply Qle_trans with (inject_Z MAX_WAIT).
    - rewrite <- Zle_Qle. exact Hmax.
    - apply Qle_bool_iff, sleep_max_ok. }
  rewrite H0, H1. reflexivity.
Qed.

Lemma time_sleep_zero (w : World) :
  time_sleep (V:=V) (E:=E) env 0 w = (Ok tt, record (EvSleep 0) w).
Proof. apply (time_sleep_accepts 0). unfold MAX_WAIT. lia. Qed.

Lemma invoke_captures (fn : Operation) (k : Z) (w w' : World)
    (attempt : Attempt (V:=V) (E:=E)) :
  invoke fn k w = (Ok attempt, w') ->
  attempt_number attempt = k /\
  w' = record (EvInvoke k) (bump_invocations w) /\
  match value attempt with
  | Success v => fn (invocations w) = Returns v
  | Failure e => fn (invocations w) = Raises e /\ isinstance e Exception = true
  end.
Proof.
  unfold invoke. destruct (fn (invocations w)) as [v|e] eqn:F.
  - intros [= <- <-]. simpl. auto.
  - destruct (isinstance e Exception) eqn:I; [|discriminate].
    intros [= <- <-]. simpl. auto.
Qed.

(** The branch taken when the stop strategy signals never reaches the
    [raise] of a returned value. *)
Lemma stop_error_not_TypeError (self : Retrying) (a : Attempt (V:=V) (E:=E)) :
  stop_error self a <> TypeError.
Proof.
  unfold stop_error, has_exception, Attempt_get.
  destruct (_wrap_exception self), (value a); simpl; discriminate.
Qed.

(** A [_MaybeReject] built directly with no predicate rejects nothing;
    the defaults of the controller come from [_select_reject_strategy]. *)
Lemma MaybeReject_without_predicates (a : Attempt (V:=V) (E:=E)) (w : World) :
  MaybeReject_call (mk_MaybeReject None None) a w = (Ok false, w).
Proof. unfold MaybeReject_call. destruct (value a); reflexivity. Qed.

(** C1, amended: an operation that raises instances of [Exception] on its
    first two runs and returns [v] on the third, called with
    [stop_after_attempt 5], [wait_none] and the defaults otherwise,
    returns [v] after exactly 3 runs (given fuel for 3 passes). *)
Theorem call_returns_on_third_attempt (fn : Operation) (e1 e2 : E) (v : V)
    (fuel : nat) :
  fn 0%nat = Raises e1 -> isinstance e1 Exception = true ->
  fn 1%nat = Raises e2 -> isinstance e2 Exception = true ->
  fn 2%nat = Returns v ->
  (3 <= fuel)%nat ->
  exists w,
    call env
      (Retrying_init (Some (stop_after_attempt 5)) (Some wait_none)
         None None false None None None)
      fn fuel World0 = Some (Ok v, w) /\
    invocations w = 3%nat /\
    log w = [EvInvoke 1; EvRetryOnException; EvSleep 0;
             EvInvoke 2; EvRetryOnException; EvSleep 0;
             EvInvoke 3; EvRetryOnResult].
Proof.
  intros F0 I0 F1 I1 F2 Hfuel.
  destruct fuel as [|[|[|fuel]]]; try lia.
  run. rewrite F0, I0. run. rewrite time_sleep_zero.
  run. rewrite F1, I1. run. rewrite time_sleep_zero.
  run. rewrite F2.
  eexists; repeat split; reflexivity.
Qed.

(** C2, amended: an operation that on every run raises [e], an instance
    of [Exception], called with [stop_after_attempt 3], unwrapped mode
    and the defaults otherwise, is run exactly 3 times, after which [e]
    itself is raised again, not a [RetryError]. *)
Theorem call_reraises_after_three_attempts (fn : Operation (V:=V)) (e : E)
    (fuel : nat) :
  (forall i, fn i = Raises e) -> isinstance e Exception = true ->
  (3 <= fuel)%nat ->
  exists w,
    call env
      (Retrying_init (Some (stop_after_attempt 3)) (Some wait_none)
         None None false None None None)
      fn fuel World0 = Some (Raise (Reraise e), w) /\
    invocations w = 3%nat /\
    log w = [EvInvoke 1; EvRetryOnException; EvSleep 0;
             EvInvoke 2; EvRetryOnException; EvSleep 0;
             EvInvoke 3; EvRetryOnException].
Proof.
  intros F I Hfuel.
  destruct fuel as [|[|[|fuel]]]; try lia.
  run. rewrite !F, !I. run. rewrite time_sleep_zero.
  run. rewrite !F, !I. run. rewrite time_sleep_zero.
  run. rewrite !F, !I.
  eexists; repeat split; reflexivity.
Qed.

(** C3: a returned value that the configured [retry_on_result] rejects
    sends the loop into the handling of a rejected attempt although
    nothing was raised; there the stop check, the wait and the sleep are
    those of a rejected exception, so that the loop goes on to the next
    attempt or ends as that handling says; and when the stop strategy
    signals, [RetryError] wrapping that attempt is raised, whatever
    [wrap_exception] is. *)
Theorem rejected_result_retried_like_exception (self : Retrying)
    (fn : Operation) (roe : option exception_filter) (p : V -> bool)
    (start k : Z) (fuel : nat) (v : V) (w w1 : World) :
  should_reject self = _select_reject_strategy roe (Some p) ->
  p v = true ->
  invoke fn k (snd (run_hook (V:=V) (E:=E) (_before_attempts self) k w))
  = (Ok (mkAttempt (Success v) k), w1) ->
  let a := mkAttempt (Success v) k in
  let w2 := record EvRetryOnResult w1 in
  let w3 := snd (run_hook (V:=V) (E:=E) (_after_attempts self) k w2) in
  let delay := now_ms env (clock_reads w3) - start in
  loop env self fn start (S fuel) k w
  = match on_rejected env self start k a w2 with
    | (Ok _, w4) => loop env self fn start fuel (k + 1) w4
    | (Raise r, w4) => Some (Raise r, w4)
    end /\
  (should_stop self k delay = false ->
   forall e : E,
     on_rejected env self start k a w2
     = on_rejected env self start k (mkAttempt (Failure e) k) w2) /\
  (should_stop self k delay = true ->
   loop env self fn start (S fuel) k w
   = Some (Raise (RetryError a), bump_clock w3)).
Proof.
  intros Hsel Hp Hinv a w2 w3 delay.
  assert (Hpass : loop env self fn start (S fuel) k w
                  = match on_rejected env self start k a w2 with
                    | (Ok _, w4) => loop env self fn start fuel (k + 1) w4
                    | (Raise r, w4) => Some (Raise r, w4)
                    end).
  { revert Hinv. unfold loop at 1, iteration, bind, run_hook, ret.
    destruct (_before_attempts self); simpl; intros Hinv;
      rewrite Hinv, Hsel; simpl; rewrite Hp; simpl;
      fold a w2; destruct (on_rejected env self start k a w2) as [[[]|r] w4];
      reflexivity. }
  assert (Hrej : forall a' : Attempt,
             on_rejected env self start k a' w2
             = if should_stop self k delay
               then (Raise (stop_error self a'), bump_clock w3)
               else bind (compute_sleep env self k delay) (time_sleep env)
                      (bump_clock w3)).
  { intros a'. subst w3 delay.
    unfold on_rejected, bind, time_ms, run_hook, ret, raise.
    destruct (_after_attempts self); simpl;
      destruct (should_stop self k _); reflexivity. }
  split; [exact Hpass|]. split.
  - intros Hstop e. rewrite !Hrej, Hstop. reflexivity.
  - intros Hstop. rewrite Hpass, Hrej, Hstop.
    unfold stop_error. simpl. rewrite andb_false_r. reflexivity.
Qed.

(** C4, amended: when the reject strategy returns false on an attempt,
    the loop ends in that pass with the attempt's outcome as
    [Attempt.get] gives it under the configured flag: a returned value is
    returned; an accepted failure is raised again unchanged when
    [wrap_exception] is false, and raised inside a [RetryError] when
    [wrap_exception] is true. *)
Theorem accepted_attempt_ends_call (self : Retrying) (fn : Operation)
    (start k : Z) (fuel : nat) (w w1 w2 : World) (attempt : Attempt) :
  invoke fn k (snd (run_hook (V:=V) (E:=E) (_before_attempts self) k w))
  = (Ok attempt, w1) ->
  MaybeReject_call (should_reject self) attempt w1 = (Ok false, w2) ->
  loop env self fn start (S fuel) k w =
  Some (match value attempt return Result V with
        | Success v => Ok v
        | Failure e =>
            if _wrap_exception self then Raise (RetryError attempt)
            else Raise (Reraise e)
        end, w2).
Proof.
  unfold loop, iteration, bind, run_hook, ret.
  destruct (_before_attempts self); simpl; intros Hinv Hrej;
    rewrite Hinv, Hrej; simpl; unfold lift, Attempt_get;
    (destruct (value attempt); [reflexivity|]);
    destruct (_wrap_exception self); reflexivity.
Qed.

(** C8: the strategy selected for [retry_on_exception=None] and
    [retry_on_result=None], which is the one a controller built with
    these defaults holds, returns false on every returned value and true
    on every captured exception. *)
Theorem default_strategy_rejects_exceptions_only (k : Z) (w : World) :
  (forall v : V,
     fst (MaybeReject_call (_select_reject_strategy (V:=V) None None)
            (mkAttempt (Success v) k) w) = Ok false) /\
  (forall e : E,
     fst (MaybeReject_call (_select_reject_strategy (V:=V) None None)
            (mkAttempt (Failure e) k) w) = Ok true) /\
  (forall st wt wr j b a,
     should_reject (Retrying_init st wt None None wr j b a)
     = _select_reject_strategy (V:=V) None None).
Proof. repeat split. Qed.

(** C9: on a captured exception the selected strategy calls its
    exception predicate and nothing else, and the whole outcome is the
    same for any two result predicates; on a returned value it calls its
    result predicate and nothing else, and the outcome is the same for
    any two exception predicates.  The decision is the predicate's
    verdict on the captured error, respectively on the value. *)
Theorem reject_runs_one_predicate (roe roe' : option exception_filter)
    (ror ror' : option (V -> bool)) (k : Z) (w : World) :
  (forall e : E,
     let a := mkAttempt (Failure e) k in
     MaybeReject_call (_select_reject_strategy (V:=V) roe ror) a w
     = MaybeReject_call (_select_reject_strategy (V:=V) roe ror') a w /\
     log (snd (MaybeReject_call (_select_reject_strategy (V:=V) roe ror) a w))
     = log w ++ [EvRetryOnException]) /\
  (forall v : V,
     let a := mkAttempt (Success v) k in
     MaybeReject_call (_select_reject_strategy (V:=V) roe ror) a w
     = MaybeReject_call (_select_reject_strategy (V:=V) roe' ror) a w /\
     log (snd (MaybeReject_call (_select_reject_strategy (V:=V) roe ror) a w))
     = log w ++ [EvRetryOnResult]) /\
  (forall (p : E -> bool) (e : E),
     fst (MaybeReject_call
            (_select_reject_strategy (V:=V) (Some (ExcCallable p)) ror)
            (mkAttempt (Failure e) k) w) = Ok (p e)) /\
  (forall (ts : list Cls) (e : E),
     fst (MaybeReject_call
            (_select_reject_strategy (V:=V) (Some (ExcTypes ts)) ror)
            (mkAttempt (Failure e) k) w)
     = Ok (existsb (isinstance e) ts)) /\
  (forall (p : V -> bool) (v : V),
     fst (MaybeReject_call (_select_reject_strategy (V:=V) roe (Some p))
            (mkAttempt (Success v) k) w) = Ok (p v)).
Proof. repeat split. Qed.

Lemma loop_jitter_zero st wt sr wr b a (fn : Operation (V:=V) (E:=E))
    (start : Z) (fuel : nat) :
  forall (k : Z) (w : World),
    loop env (mkRetrying st wt sr wr b a (Some 0%Q)) fn start fuel k w
    = loop env (mkRetrying st wt sr wr b a None) fn start fuel k w.
Proof.
  induction fuel as [|fuel IH]; intros k w; [reflexivity|].
  simpl.
  change (iteration env (mkRetrying st wt sr wr b a (Some 0%Q)) fn start k w)
    with (iteration env (mkRetrying st wt sr wr b a None) fn start k w).
  destruct (iteration env (mkRetrying st wt sr wr b a None) fn start k w)
    as [[[v|]|r] w']; auto.
Qed.

Lemma run_hook_eq (h : option Hook) (k : Z) (w : World) :
  run_hook (V:=V) (E:=E) h k w = (Ok tt, snd (run_hook (V:=V) (E:=E) h k w)).
Proof. destruct h; reflexivity. Qed.

(** The wait strategy's output is an integer, and computing it writes
    nothing to the log. *)
Lemma base_wait_int (self : Retrying (V:=V) (E:=E)) (k d : Z) (w w' : World)
    (q : Q) :
  base_wait env self k d w = (Ok q, w') ->
  log w' = log w /\ exists n : Z, q = inject_Z n.
Proof.
  unfold base_wait, wait_call, bind, ret, raise, random_draw,
    wait_random_call.
  destruct (wait self) as [[wt|lo hi|s i m|mult m]|];
    try destruct (randint lo hi _);
    intros [= <- <-]; (split; [reflexivity|]); eexists; reflexivity.
Qed.

(** A float sum with a jitter is not below an integer wait of at most
    2^53. *)
Lemma add_max0_lower (fl : Q -> Q) (n : Z) (jitter : Q) :
  float_laws fl -> Z.abs n <= 2 ^ 53 ->
  (inject_Z n <= add_max0 fl (inject_Z n) jitter)%Q.
Proof.
  intros [Hmono Hint] Hn. unfold add_max0.
  destruct (Qle_bool jitter 0) eqn:Hj; [apply Qle_refl|].
  assert (Hpos : (0 < jitter)%Q).
  { apply Qnot_le_lt. intros Hle. apply Qle_bool_iff in Hle. congruence. }
  pose proof (Hint n Hn) as Hfl.
  apply Qle_trans with (fl (inject_Z n)); [rewrite Hfl; apply Qle_refl|].
  apply Hmono. rewrite Hfl. lra.
Qed.

Lemma compute_sleep_lower (self : Retrying (V:=V) (E:=E)) (k d : Z)
    (w w' : World) (sleep : Q) :
  float_laws (float_round env) ->
  compute_sleep env self k d w = (Ok sleep, w') ->
  log w' = log w /\
  exists (n : Z) (w1 : World),
    base_wait env self k d w = (Ok (inject_Z n), w1) /\
    (Z.abs n <= 2 ^ 53 -> (inject_Z n <= sleep)%Q).
Proof.
  intros Hlaws. unfold compute_sleep, bind.
  destruct (base_wait env self k d w) as [[q|r] w1] eqn:Hbase;
    [|discriminate].
  destruct (base_wait_int _ _ _ _ _ _ Hbase) as (Hlog & n & ->).
  unfold add_jitter, bind, random_unit, ret.
  destruct (_wait_jitter_max self) as [jm|];
    [destruct (Qeq_bool jm 0)|]; intros [= <- <-];
    (split; [exact Hlog|]); exists n, w1; (split; [reflexivity|]);
    intros Hn; try apply Qle_refl.
  apply add_max0_lower; assumption.
Qed.

(** A rejected attempt after which the loop goes on was not stopped, and
    the sleep computed for it was passed to [time.sleep]. *)
Lemma on_rejected_slept (self : Retrying (V:=V) (E:=E)) (start k : Z)
    (att : Attempt) (w w' : World) :
  on_rejected env self start k att w = (Ok tt, w') ->
  let w1 := snd (run_hook (V:=V) (E:=E) (_after_attempts self) k w) in
  let delay := now_ms env (clock_reads w1) - start in
  should_stop self k delay = false /\
  exists (sleep : Q) (w2 : World),
    compute_sleep env self k delay (bump_clock w1) = (Ok sleep, w2) /\
    w' = record (EvSleep sleep) w2.
Proof.
  intros Hon w1 delay. subst w1 delay. revert Hon.
  unfold on_rejected, bind at 1. rewrite run_hook_eq.
  unfold bind at 1, time_ms.
  destruct (should_stop self k _); [discriminate|].
  unfold bind.
  destruct (compute_sleep env self k _ _) as [[q|r] w2]; [|discriminate].
  unfold time_sleep, tell, raise.
  destruct (Qle_bool 0 q); [|discriminate].
  destruct (Qle_bool q (sleep_max env)); [|discriminate].
  intros [= <-]. split; [reflexivity|]. exists q, w2. split; reflexivity.
Qed.

(** A pass whose attempt is rejected goes through [on_rejected], and on
    to the next attempt when that returns. *)
Lemma loop_rejected_pass (self : Retrying (V:=V) (E:=E)) (fn : Operation)
    (start k : Z) (fuel : nat) (att : Attempt) (w0 wi w : World) :
  invoke fn k (snd (run_hook (V:=V) (E:=E) (_before_attempts self) k w0))
  = (Ok att, wi) ->
  MaybeReject_call (should_reject self) att wi = (Ok true, w) ->
  loop env self fn start (S fuel) k w0
  = match on_rejected env self start k att w with
    | (Ok _, w4) => loop env self fn start fuel (k + 1) w4
    | (Raise r, w4) => Some (Raise r, w4)
    end.
Proof.
  intros Hinv Hrej. cbn [loop]. unfold iteration, bind at 1.
  rewrite run_hook_eq. unfold bind at 1. rewrite Hinv.
  unfold bind at 1. rewrite Hrej. cbn [negb]. unfold bind, ret.
  destruct (on_rejected env self start k att w) as [[[]|r] w4];
    reflexivity.
Qed.

(** C10, amended: with [wait_jitter_max=0] the sleep computed after a
    rejected attempt is the wait strategy's output, that output is what
    is passed to [time.sleep] when the attempt is not stopped, and the
    rejected attempt and the whole call go as with
    [wait_jitter_max=None]; and for any jitter bound, when the wait
    strategy's output is at most 2^53 in magnitude, so that it is a
    float, the sleep computed is not less than it, and neither is the
    duration slept when the loop goes on.  A pass of the loop whose
    attempt is rejected does go through this computation and sleep. *)
Theorem jitter_zero_off_and_never_negative st wt sr wr b a
    (jm : option Q) (fn : Operation (V:=V) (E:=E)) (att : Attempt)
    (start k : Z) (fuel : nat) (w : World) :
  let zero := mkRetrying st wt sr wr b a (Some 0%Q) in
  let none := mkRetrying st wt sr wr b a None in
  let self := mkRetrying st wt sr wr b a jm in
  let w1 := snd (run_hook (V:=V) (E:=E) a k w) in
  let delay := now_ms env (clock_reads w1) - start in
  compute_sleep env zero k delay w = base_wait env zero k delay w /\
  (should_stop zero k delay = false ->
   on_rejected env zero start k att w
   = bind (base_wait env zero k delay) (time_sleep env) (bump_clock w1)) /\
  on_rejected env zero start k att w = on_rejected env none start k att w /\
  call env zero fn fuel w = call env none fn fuel w /\
  (float_laws (float_round env) ->
   (forall (sleep : Q) (w' : World),
      compute_sleep env self k delay w = (Ok sleep, w') ->
      exists (n : Z) (w2 : World),
        base_wait env self k delay w = (Ok (inject_Z n), w2) /\
        (Z.abs n <= 2 ^ 53 -> (inject_Z n <= sleep)%Q)) /\
   (forall w' : World,
      on_rejected env self start k att w = (Ok tt, w') ->
      exists (n : Z) (sleep : Q) (w2 : World),
        base_wait env self k delay (bump_clock w1) = (Ok (inject_Z n), w2) /\
        log w' = log w1 ++ [EvSleep sleep] /\
        (Z.abs n <= 2 ^ 53 -> (inject_Z n <= sleep)%Q))) /\
  (forall w0 wi : World,
     invoke fn k (snd (run_hook (V:=V) (E:=E) b k w0)) = (Ok att, wi) ->
     MaybeReject_call sr att wi = (Ok true, w) ->
     loop env self fn start (S fuel) k w0
     = match on_rejected env self start k att w with
       | (Ok _, w4) => loop env self fn start fuel (k + 1) w4
       | (Raise r, w4) => Some (Raise r, w4)
       end).
Proof.
  intros zero none self w1 delay.
  split; [|split; [|split; [|split; [|split]]]].
  - subst zero. unfold compute_sleep, bind.
    destruct (base_wait _ _ _ _) as [[q|r] w2]; reflexivity.
  - intros Hstop. subst zero w1 delay.
    unfold on_rejected, bind at 1. rewrite run_hook_eq.
    unfold bind at 1, time_ms. cbn [_after_attempts] in *.
    rewrite Hstop. unfold compute_sleep, bind.
    destruct (base_wait _ _ _ _) as [[q|r] w2]; reflexivity.
  - reflexivity.
  - subst zero none. unfold call. simpl. apply loop_jitter_zero.
  - intros Hlaws. split.
    + intros sleep w' Hsleep.
      destruct (compute_sleep_lower _ _ _ _ _ _ Hlaws Hsleep)
        as (_ & n & w2 & Hbase & Hle).
      exists n, w2. split; assumption.
    + intros w' Hon.
      destruct (on_rejected_slept _ _ _ _ _ _ Hon)
        as (_ & sleep & w2 & Hsleep & ->).
      destruct (compute_sleep_lower _ _ _ _ _ _ Hlaws Hsleep)
        as (Hlog & n & w3 & Hbase & Hle).
      exists n, sleep, w3. split; [exact Hbase|]. split; [|exact Hle].
      cbn [log record]. rewrite Hlog. reflexivity.
  - intros w0 wi Hinv Hrej.
    apply (loop_rejected_pass self fn start k fuel att w0 wi w Hinv Hrej).
Qed.

End ControllerProperties.

(** ** The properties at concrete inputs *)

(** C1 on an operation that raises [IOError] twice and then returns 42. *)
Lemma call_returns_on_third_attempt_witness :
  exists w,
    call env0
      (Retrying_init (Some (stop_after_attempt 5)) (Some wait_none)
         None None false None None None)
      (raises_twice_then IOError 42) 3 World0 = Some (Ok 42, w) /\
    invocations w = 3%nat /\
    log w = [EvInvoke 1; EvRetryOnException; EvSleep 0;
             EvInvoke 2; EvRetryOnException; EvSleep 0;
             EvInvoke 3; EvRetryOnResult].
Proof.
  apply (call_returns_on_third_attempt env0 (raises_twice_then IOError 42)
           IOError IOError 42 3); try reflexivity; lia.
Defined.

(** C1, as stated, fails: an operation that raises [KeyboardInterrupt],
    which is not an instance of [Exception], on its first two runs is
    not retried; its first raise leaves the call. *)
Lemma call_lets_keyboard_interrupt_through :
  ~ (forall (fn : Operation (V:=Z) (E:=PyClass)) (e1 e2 : PyClass) (v : Z),
        fn 0%nat = Raises e1 -> fn 1%nat = Raises e2 ->
        fn 2%nat = Returns v ->
        exists fuel w,
          call env0
            (Retrying_init (Some (stop_after_attempt 5)) (Some wait_none)
               None None false None None None)
            fn fuel World0 = Some (Ok v, w) /\
          invocations w = 3%nat).
Proof.
  intros claim.
  destruct (claim (raises_twice_then KeyboardInterrupt 42)
              KeyboardInterrupt KeyboardInterrupt 42
              eq_refl eq_refl eq_refl) as (fuel & w & Hcall & _).
  destruct fuel; [discriminate Hcall|].
  vm_compute in Hcall. discriminate Hcall.
Qed.

Example call_keyboard_interrupt_once :
  call env0
    (Retrying_init (Some (stop_after_attempt 5)) (Some wait_none)
       None None false None None None)
    (raises_twice_then KeyboardInterrupt 42) 3 World0
  = Some (Raise (Reraise KeyboardInterrupt), mkWorld 1 1 0 [EvInvoke 1]).
Proof. reflexivity. Qed.

(** C2 on an operation that always raises [ErrorX]. *)
Lemma call_reraises_after_three_attempts_witness :
  exists w,
    call env0
      (Retrying_init (Some (stop_after_attempt 3)) (Some wait_none)
         None None false None None None)
      (always_raises ErrorX) 7 World0 = Some (Raise (Reraise ErrorX), w) /\
    invocations w = 3%nat /\
    log w = [EvInvoke 1; EvRetryOnException; EvSleep 0;
             EvInvoke 2; EvRetryOnException; EvSleep 0;
             EvInvoke 3; EvRetryOnException].
Proof.
  apply (call_reraises_after_three_attempts env0 (always_raises ErrorX)
           ErrorX 7); try reflexivity; lia.
Defined.

(** C2, as stated, fails: an operation that always raises an error
    outside [Exception] is run once, not three times. *)
Lemma call_runs_uncaught_error_once :
  ~ (forall (fn : Operation (V:=Z) (E:=PyClass)) (e : PyClass),
        (forall i, fn i = Raises e) ->
        exists fuel w,
          call env0
            (Retrying_init (Some (stop_after_attempt 3)) (Some wait_none)
               None None false None None None)
            fn fuel World0 = Some (Raise (Reraise e), w) /\
          invocations w = 3%nat).
Proof.
  intros claim.
  destruct (claim (always_raises FatalError) FatalError
              (fun _ => eq_refl)) as (fuel & w & Hcall & Hruns).
  destruct fuel; [discriminate Hcall|].
  vm_compute in Hcall. injection Hcall as <-. discriminate Hruns.
Qed.

(** C3 on an operation that keeps returning the rejected value 0. *)
Lemma rejected_result_retried_like_exception_witness :
  loop env0 retry_while_zero (always_returns 0) 1000 3 1 World0
  = loop env0 retry_while_zero (always_returns 0) 1000 2 2
      (mkWorld 1 1 0 [EvInvoke 1; EvRetryOnResult; EvSleep 0]) /\
  on_rejected env0 retry_while_zero 1000 1 (mkAttempt (Success 0) 1)
    (mkWorld 1 0 0 [EvInvoke 1; EvRetryOnResult])
  = on_rejected env0 retry_while_zero 1000 1 (mkAttempt (Failure IOError) 1)
      (mkWorld 1 0 0 [EvInvoke 1; EvRetryOnResult]) /\
  loop env0 retry_while_zero (always_returns 0) 1000 1 2 World0
  = Some (Raise (RetryError (mkAttempt (Success 0) 2)),
          mkWorld 1 1 0 [EvInvoke 2; EvRetryOnResult]).
Proof.
  destruct (rejected_result_retried_like_exception env0 retry_while_zero
              (always_returns 0) None (Z.eqb 0) 1000 1 2 0 World0
              (mkWorld 1 0 0 [EvInvoke 1]) eq_refl eq_refl eq_refl)
    as (Hpass & Hsame & _).
  destruct (rejected_result_retried_like_exception env0 retry_while_zero
              (always_returns 0) None (Z.eqb 0) 1000 2 0 0 World0
              (mkWorld 1 0 0 [EvInvoke 2]) eq_refl eq_refl eq_refl)
    as (_ & _ & Hstop).
  split; [exact Hpass|].
  split; [apply Hsame; reflexivity | apply Hstop; reflexivity].
Defined.

Example call_rejected_result_gives_up :
  call env0 retry_while_zero (always_returns 0) 5 World0
  = Some (Raise (RetryError (mkAttempt (Success 0) 2)),
          mkWorld 2 3 0 [EvInvoke 1; EvRetryOnResult; EvSleep 0;
                         EvInvoke 2; EvRetryOnResult]).
Proof. reflexivity. Qed.

(** C4 on an [ErrorX] that a controller retrying [IOError] only accepts. *)
Lemma accepted_attempt_ends_call_witness :
  loop env0 retry_io_wrapped (always_raises ErrorX) 1000 1 1 World0
  = Some (Raise (RetryError (mkAttempt (Failure ErrorX) 1)),
          mkWorld 1 0 0 [EvInvoke 1; EvRetryOnException]).
Proof.
  apply (accepted_attempt_ends_call env0 retry_io_wrapped
           (always_raises ErrorX) 1000 1 0 World0
           (mkWorld 1 0 0 [EvInvoke 1])
           (mkWorld 1 0 0 [EvInvoke 1; EvRetryOnException])
           (mkAttempt (Failure ErrorX) 1)); reflexivity.
Defined.

(** C4, as stated, fails: with [wrap_exception] set, a failure that the
    reject strategy accepts leaves the call inside a [RetryError], not as
    the original error. *)
Lemma accepted_failure_is_wrapped :
  ~ (forall (self : Retrying) (fn : Operation (V:=Z) (E:=PyClass))
       (start k : Z) (fuel : nat) (w w1 w2 : World) (attempt : Attempt),
        invoke fn k (snd (run_hook (V:=Z) (E:=PyClass)
                            (_before_attempts self) k w))
        = (Ok attempt, w1) ->
        MaybeReject_call (should_reject self) attempt w1 = (Ok false, w2) ->
        loop env0 self fn start (S fuel) k w =
        Some (match value attempt return Result Z with
              | Success v => Ok v
              | Failure e => Raise (Reraise e)
              end, w2)).
Proof.
  intros claim.
  specialize (claim retry_io_wrapped (always_raises ErrorX) 1000 1 0%nat
                World0 (mkWorld 1 0 0 [EvInvoke 1])
                (mkWorld 1 0 0 [EvInvoke 1; EvRetryOnException])
                (mkAttempt (Failure ErrorX) 1) eq_refl eq_refl).
  vm_compute in claim. discriminate claim.
Qed.

(** Exact arithmetic keeps the laws of a rounding. *)
Lemma float_laws_exact : float_laws (fun x => x).
Proof. split; intros; [assumption | apply Qeq_refl]. Qed.

(** [binary64] on values whose floats are known: 2^53 + 1 is a tie and
    goes to the even 2^53; 0.1 is 3602879701896397 / 2^55; -1/3 is
    -6004799503160661 / 2^54; 50 * (1 - 2^-53) is 50 - 2^-47, and 100
    plus that is 150. *)
Example binary64_values :
  binary64 (9007199254740993 # 1) = 9007199254740992 # 1 /\
  binary64 (1 # 10) = 3602879701896397 # 36028797018963968 /\
  binary64 (- (1 # 3))%Q = (- (6004799503160661 # 18014398509481984))%Q /\
  binary64 (50 * (9007199254740991 # 9007199254740992))%Q
  = 7036874417766399 # 140737488355328 /\
  binary64 (100 + (7036874417766399 # 140737488355328))%Q = 150 # 1.
Proof. vm_compute. repeat split. Qed.

(** C10 on a fixed wait of 100: with a jitter bound of 0 the rejected
    attempt sleeps 100; with a bound of 50 and a draw of one half it
    sleeps 125. *)
Lemma jitter_zero_off_and_never_negative_witness :
  on_rejected env0
    (mkRetrying None (Some (wait_fixed 100))
       (_select_reject_strategy None None) false None None (Some 0%Q))
    1000 1 (mkAttempt (V:=Z) (Failure IOError) 1)
    (mkWorld 1 1 0 [EvInvoke 1; EvRetryOnException])
  = (Ok tt,
     mkWorld 1 2 0 [EvInvoke 1; EvRetryOnException; EvSleep (100 # 1)]) /\
  exists (n : Z) (sleep : Q) (w2 : World),
    base_wait env0 fixed_100_jitter_50 1 10
      (mkWorld 1 2 0 [EvInvoke 1; EvRetryOnException])
    = (Ok (inject_Z n), w2) /\
    [EvInvoke 1; EvRetryOnException; EvSleep (250 # 2)]
    = [EvInvoke 1; EvRetryOnException] ++ [EvSleep sleep] /\
    (Z.abs n <= 2 ^ 53 -> (inject_Z n <= sleep)%Q) /\
    loop env0 fixed_100_jitter_50 (always_raises IOError) 1000 4 1
      (mkWorld 0 1 0 [])
    = loop env0 fixed_100_jitter_50 (always_raises IOError) 1000 3 2
        (mkWorld 1 2 1 [EvInvoke 1; EvRetryOnException; EvSleep (250 # 2)]).
Proof.
  pose proof (jitter_zero_off_and_never_negative env0 None
                (Some (wait_fixed 100)) (_select_reject_strategy None None)
                false None None (Some 50%Q) (always_raises IOError)
                (mkAttempt (Failure IOError) 1) 1000 1 3
                (mkWorld 1 1 0 [EvInvoke 1; EvRetryOnException])) as T.
  cbv zeta in T. destruct T as (_ & Hzero & _ & _ & Hjitter & Hloop).
  split.
  - rewrite Hzero; reflexivity.
  - destruct (Hjitter float_laws_exact) as (_ & Hpass).
    destruct (Hpass (mkWorld 1 2 1
                       [EvInvoke 1; EvRetryOnException; EvSleep (250 # 2)])
                eq_refl) as (n & sleep & w2 & Hbase & Hlog & Hle).
    exists n, sleep, w2. split; [exact Hbase|]. split; [exact Hlog|].
    split; [exact Hle|].
    exact (Hloop (mkWorld 0 1 0 []) (mkWorld 1 1 0 [EvInvoke 1])
             eq_refl eq_refl).
Defined.

(** C10, as stated, fails for a wait that is no float: a fixed wait of
    2^53 + 1 becomes the float 2^53, and with a jitter of one half the
    float sum stays 2^53, below the wait strategy's output. *)
Lemma jitter_sum_below_large_wait :
  ~ (forall (env : Env) (self : Retrying (V:=Z) (E:=PyClass)) (k d : Z)
       (w w' : World) (sleep : Q),
        compute_sleep env self k d w = (Ok sleep, w') ->
        exists (base : Q) (w1 : World),
          base_wait env self k d w = (Ok base, w1) /\ (base <= sleep)%Q).
Proof.
  intros claim.
  assert (Hsleep : compute_sleep env64 fixed_2p53_jitter_1 1 0 World0
                   = (Ok (9007199254740992 # 1), bump_draws World0))
    by (vm_compute; reflexivity).
  destruct (claim _ _ _ _ _ _ _ Hsleep) as (base & w1 & Hbase & Hle).
  vm_compute in Hbase. injection Hbase as <- <-.
  vm_compute in Hle. apply Hle. reflexivity.
Qed.

(** That sum is then passed to [time.sleep], which overflows. *)
Example call_large_wait_overflows :
  call env64 fixed_2p53_jitter_1 (always_raises IOError) 3 World0
  = Some (Raise SleepOverflow,
          mkWorld 1 2 1 [EvInvoke 1; EvRetryOnException]).
Proof. vm_compute. reflexivity. Qed.

(** Hooks see each attempt number: before every run, and after every
    rejected one. *)
Example call_with_hooks :
  call env0
    (Retrying_init (Some (stop_after_attempt 5)) (Some (wait_fixed 20))
       None None false None (Some log_hook) (Some log_hook))
    (raises_twice_then IOError 42) 3 World0
  = Some (Ok 42,
          mkWorld 3 3 0
            [EvHook 1; EvInvoke 1; EvRetryOnException; EvHook 1;
             EvSleep (20 # 1);
             EvHook 2; EvInvoke 2; EvRetryOnException; EvHook 2;
             EvSleep (20 # 1);
             EvHook 3; EvInvoke 3; EvRetryOnResult]).
Proof. reflexivity. Qed.

(** Without a stop strategy the loop never gives up by itself. *)
Example call_without_stop_runs_out_of_fuel :
  call env0
    (Retrying_init None (Some wait_none) None None false None None None)
    (always_raises IOError) 25 World0 = None.
Proof. reflexivity. Qed.

(** A negative fixed wait reaches [time.sleep], which refuses it. *)
Example call_negative_wait :
  call env0
    (Retrying_init None (Some (wait_fixed (-5))) None None false None
       None None)
    (always_raises IOError) 3 World0
  = Some (Raise NegativeSleep, mkWorld 1 2 0 [EvInvoke 1; EvRetryOnException]).
Proof. reflexivity. Qed.

(** * Further properties *)

(** ** Stop and wait strategies *)

(** X1: stop strategies are monotone: one that signals after some attempt
    and elapsed time signals after every later attempt and longer
    elapsed time. *)
Theorem stop_call_monotone (s : stop_strategy) (k k' d d' : Z) :
  k <= k' -> d <= d' ->
  stop_call s k d = true -> stop_call s k' d' = true.
Proof.
  intros Hk Hd. destruct s; simpl; rewrite !Z.geb_le; lia.
Qed.

Lemma stop_call_monotone_witness :
  stop_call (stop_after_delay 500) 7 800 = true.
Proof.
  apply (stop_call_monotone (stop_after_delay 500) 2 7 500 800);
    [lia | lia | reflexivity].
Defined.

(** X2: [wait_incrementing] stays between 0 and max(0, max); it does not
    decrease from one attempt to a later one when the increment is not
    negative, and does not increase when the increment is not positive. *)
Theorem wait_incrementing_bounded_monotone (s i m k k' d d' : Z) :
  0 <= wait_incrementing_call s i m k d <= Z.max 0 m /\
  (0 <= i -> k <= k' ->
   wait_incrementing_call s i m k d <= wait_incrementing_call s i m k' d') /\
  (i <= 0 -> k <= k' ->
   wait_incrementing_call s i m k' d' <= wait_incrementing_call s i m k d).
Proof.
  rewrite !wait_incrementing_call_eq. repeat split; try lia.
  - intros Hi Hk. assert (i * (k - 1) <= i * (k' - 1)) by nia. lia.
  - intros Hi Hk. assert (i * (k' - 1) <= i * (k - 1)) by nia. lia.
Qed.

Lemma wait_incrementing_bounded_monotone_witness :
  wait_incrementing_call 0 100 350 2 0 <= wait_incrementing_call 0 100 350 9 40
  /\ wait_incrementing_call 900 (-100) 1000 9 40
     <= wait_incrementing_call 900 (-100) 1000 2 0.
Proof.
  split.
  - apply (proj1 (proj2
             (wait_incrementing_bounded_monotone 0 100 350 2 9 0 40))); lia.
  - apply (proj2 (proj2
             (wait_incrementing_bounded_monotone 900 (-100) 1000 2 9 0 40)));
      lia.
Defined.

(** X3: [wait_exponential] stays between 0 and max(0, max); for every
    multiplier it does not decrease from one attempt to a later one; and
    while multiplier * 2^(k+1) is still within max, a non-negative
    multiplier makes the wait after attempt k+1 twice that after k. *)
Theorem wait_exponential_bounded_monotone (mult m k k' d d' : Z) :
  0 <= wait_exponential_call mult m k d <= Z.max 0 m /\
  (0 <= k <= k' ->
   wait_exponential_call mult m k d <= wait_exponential_call mult m k' d') /\
  (0 <= k -> 0 <= mult -> mult * 2 ^ (k + 1) <= m ->
   wait_exponential_call mult m (k + 1) d'
   = 2 * wait_exponential_call mult m k d).
Proof.
  rewrite !wait_exponential_call_eq. repeat split; try lia.
  - intros [Hk Hk'].
    assert (Hpow : 0 < 2 ^ k) by (apply Z.pow_pos_nonneg; lia).
    assert (Hle : 2 ^ k <= 2 ^ k') by (apply Z.pow_le_mono_r; lia).
    destruct (Z.le_gt_cases 0 mult) as [Hm|Hm].
    + assert (mult * 2 ^ k <= mult * 2 ^ k') by nia. lia.
    + assert (mult * 2 ^ k < 0) by nia.
      assert (mult * 2 ^ k' < 0) by nia. lia.
  - intros Hk Hmult Hcap. rewrite Z.pow_add_r in * by lia.
    change (2 ^ 1) with 2 in *.
    assert (Hpow : 0 < 2 ^ k) by (apply Z.pow_pos_nonneg; lia).
    assert (0 <= mult * 2 ^ k) by nia. lia.
Qed.

Lemma wait_exponential_bounded_monotone_witness :
  wait_exponential_call (-3) 5000 2 0 <= wait_exponential_call (-3) 5000 6 90
  /\ wait_exponential_call 100 5000 4 0 = 2 * wait_exponential_call 100 5000 3 0.
Proof.
  split.
  - apply (proj1 (proj2
             (wait_exponential_bounded_monotone (-3) 5000 2 6 0 90))); lia.
  - apply (proj2 (proj2
             (wait_exponential_bounded_monotone 100 5000 3 3 0 0)));
      [lia | lia | vm_compute; discriminate].
Defined.

(** ** The controller, pass by pass *)

Section ControllerPasses.

Context {V E Cls : Type} `{PyExc E Cls}.
Variable env : Env.

Lemma steady_wait_base (self : Retrying (V:=V) (E:=E)) (k d : Z) :
  steady_wait (wait self) = true ->
  0 <= steady_delay (wait self) k d <= MAX_WAIT /\
  forall w,
    base_wait env self k d w
    = (Ok (inject_Z (steady_delay (wait self) k d)), w).
Proof.
  unfold base_wait, steady_wait, steady_delay.
  assert (HM : 0 <= MAX_WAIT) by (unfold MAX_WAIT; lia).
  destruct (wait self) as [[wt|a b|s i m|mult m]|]; intros Hs.
  - apply andb_true_iff in Hs. destruct Hs as [H0 H1].
    apply Z.leb_le in H0, H1. split; [exact (conj H0 H1) | reflexivity].
  - discriminate.
  - apply Z.leb_le in Hs.
    split; [rewrite wait_incrementing_call_eq; lia | reflexivity].
  - apply Z.leb_le in Hs.
    split; [rewrite wait_exponential_call_eq; lia | reflexivity].
  - split; [lia | reflexivity].
Qed.

(** A controller without hooks and jitter that retries on every
    exception. *)
Local Abbreviation plain st ws ror wrap :=
  (Retrying_init (V:=V) (E:=E) st ws None ror wrap None None None).

Lemma pass_exception_continues st ws ror wrap (fn : Operation) (start k : Z)
    (w : World) (e : E) (fuel : nat) :
  steady_wait ws = true ->
  fn (invocations w) = Raises e -> isinstance e Exception = true ->
  should_stop (plain st ws ror wrap) k (now_ms env (clock_reads w) - start)
  = false ->
  loop env (plain st ws ror wrap) fn start (S fuel) k w
  = loop env (plain st ws ror wrap) fn start fuel (k + 1)
      (mkWorld (S (invocations w)) (S (clock_reads w)) (draws w)
         (log w ++ [EvInvoke k; EvRetryOnException;
                    EvSleep (inject_Z
                      (steady_delay ws k
                         (now_ms env (clock_reads w) - start)))])).
Proof.
  intros Hws Hfn Hexc Hstop.
  destruct (steady_wait_base (plain st ws ror wrap) k
              (now_ms env (clock_reads w) - start) Hws) as (Hn & Hbase).
  cbn [wait Retrying_init] in Hn, Hbase.
  cbn [loop]. unfold iteration, bind, run_hook, ret, invoke.
  cbn [_before_attempts Retrying_init]. rewrite Hfn, Hexc.
  cbn. unfold on_rejected, bind, run_hook, ret, time_ms.
  cbn [_after_attempts Retrying_init].
  rewrite Hstop. unfold compute_sleep, bind. rewrite Hbase.
  unfold add_jitter. cbn [_wait_jitter_max Retrying_init]. unfold ret.
  rewrite time_sleep_accepts by exact Hn.
  unfold record, bump_clock, bump_invocations. cbn.
  rewrite <- ?app_assoc. reflexivity.
Qed.

Lemma pass_exception_stops st ws ror wrap (fn : Operation) (start k : Z)
    (w : World) (e : E) (fuel : nat) :
  fn (invocations w) = Raises e -> isinstance e Exception = true ->
  should_stop (plain st ws ror wrap) k (now_ms env (clock_reads w) - start)
  = true ->
  loop env (plain st ws ror wrap) fn start (S fuel) k w
  = Some (Raise (if wrap then RetryError (mkAttempt (Failure e) k)
                 else Reraise e),
          mkWorld (S (invocations w)) (S (clock_reads w)) (draws w)
            (log w ++ [EvInvoke k; EvRetryOnException])).
Proof.
  intros Hfn Hexc Hstop.
  cbn [loop]. unfold iteration, bind, run_hook, ret, invoke.
  cbn [_before_attempts Retrying_init]. rewrite Hfn, Hexc.
  cbn. unfold on_rejected, bind, run_hook, ret, time_ms.
  cbn [_after_attempts Retrying_init].
  rewrite Hstop. unfold raise, stop_error, record, bump_clock,
    bump_invocations. cbn. rewrite <- ?app_assoc.
  destruct wrap; reflexivity.
Qed.

Lemma pass_value_accepted st ws roe ror wrap jm (fn : Operation)
    (start k : Z) (w : World) (v : V) (fuel : nat) :
  fn (invocations w) = Returns v ->
  match ror with Some p => p v | None => false end = false ->
  loop env (Retrying_init st ws roe ror wrap jm None None) fn start
    (S fuel) k w
  = Some (Ok v,
          mkWorld (S (invocations w)) (clock_reads w) (draws w)
            (log w ++ [EvInvoke k; EvRetryOnResult])).
Proof.
  intros Hfn Hacc.
  cbn [loop]. unfold iteration, bind, run_hook, ret, invoke.
  cbn [_before_attempts Retrying_init]. rewrite Hfn.
  cbn. destruct ror as [p|]; cbn in *; [rewrite Hacc|];
    unfold record, bump_invocations; cbn; rewrite <- ?app_assoc;
    reflexivity.
Qed.


Lemma sleeps_app (l1 l2 : list Event) :
  sleeps (l1 ++ l2) = sleeps l1 ++ sleeps l2.
Proof.
  induction l1 as [|ev l1 IH]; [reflexivity|].
  destruct ev; simpl; rewrite IH; reflexivity.
Qed.

Lemma failed_attempts_log_S ws (start : Z) (n : nat) :
  failed_attempts_log env ws start (S n)
  = failed_attempts_log env ws start n
    ++ [EvInvoke (Z.of_nat (S n)); EvRetryOnException;
        EvSleep (inject_Z (steady_delay ws (Z.of_nat (S n))
                             (now_ms env (S n) - start)))].
Proof.
  unfold failed_attempts_log. rewrite seq_S, flat_map_app. reflexivity.
Qed.

Lemma sleeps_failed_attempts_log ws (start : Z) (n : nat) :
  sleeps (failed_attempts_log env ws start n)
  = map (fun i => inject_Z (steady_delay ws (Z.of_nat (S i))
                              (now_ms env (S i) - start)))
      (seq 0 n).
Proof.
  induction n as [|n IH]; [reflexivity|].
  rewrite failed_attempts_log_S, sleeps_app, IH, seq_S, map_app.
  reflexivity.
Qed.

(** [n] failed attempts that the stop strategy lets pass bring the loop
    to attempt [n + 1]. *)
Lemma failing_attempts st ws ror wrap (fn : Operation) (start : Z) (n : nat) :
  steady_wait ws = true ->
  (forall i, (i < n)%nat ->
     exists e, fn i = Raises e /\ isinstance e Exception = true) ->
  (forall i, (i < n)%nat ->
     should_stop (plain st ws ror wrap) (Z.of_nat (S i))
       (now_ms env (S i) - start) = false) ->
  forall (fuel : nat) (l : list Event),
    loop env (plain st ws ror wrap) fn start (n + fuel) 1 (mkWorld 0 1 0 l)
    = loop env (plain st ws ror wrap) fn start fuel (Z.of_nat (S n))
        (mkWorld n (S n) 0 (l ++ failed_attempts_log env ws start n)).
Proof.
  intros Hws. induction n as [|n IH]; intros Hfn Hstop fuel l.
  - cbn. rewrite app_nil_r. reflexivity.
  - replace (S n + fuel)%nat with (n + S fuel)%nat by lia.
    rewrite IH by (intros; auto with arith).
    destruct (Hfn n) as (e & He & Hexc); [lia|].
    rewrite (pass_exception_continues st ws ror wrap fn start
               (Z.of_nat (S n))
               (mkWorld n (S n) 0 (l ++ failed_attempts_log env ws start n))
               e fuel Hws He Hexc (Hstop n (Nat.lt_succ_diag_r n))).
    cbn [invocations clock_reads draws log].
    rewrite failed_attempts_log_S, <- app_assoc.
    replace (Z.of_nat (S n) + 1) with (Z.of_nat (S (S n))) by lia.
    reflexivity.
Qed.

Lemma call_fresh (self : Retrying (V:=V) (E:=E)) (fn : Operation)
    (fuel : nat) :
  call env self fn fuel World0
  = loop env self fn (now_ms env 0) fuel 1 (mkWorld 0 1 0 []).
Proof. reflexivity. Qed.

(** X4: take a controller with the default [retry_on_exception], no
    hooks, no jitter and a steady wait (no wait strategy, a [wait_fixed]
    between 0 and [MAX_WAIT], or a [wait_incrementing] or
    [wait_exponential] with [max] at most [MAX_WAIT]).  When the first
    [n] runs raise instances of [Exception], the stop strategy lets
    these attempts pass and run [n + 1] returns a value the result
    predicate accepts, the call returns that value after exactly [n + 1]
    runs, and has slept, in order, what the wait strategy asked after
    each of the attempts 1 to [n]. *)
Theorem call_retries_until_success st ws ror wrap (fn : Operation)
    (n : nat) (v : V) (fuel : nat) :
  steady_wait ws = true ->
  (forall i, (i < n)%nat ->
     exists e, fn i = Raises e /\ isinstance e Exception = true) ->
  fn n = Returns v ->
  match ror with Some p => p v | None => false end = false ->
  (forall i, (i < n)%nat ->
     should_stop (plain st ws ror wrap) (Z.of_nat (S i))
       (now_ms env (S i) - now_ms env 0) = false) ->
  (n < fuel)%nat ->
  exists w,
    call env (plain st ws ror wrap) fn fuel World0 = Some (Ok v, w) /\
    invocations w = S n /\
    sleeps (log w)
    = map (fun i => inject_Z (steady_delay ws (Z.of_nat (S i))
                                (now_ms env (S i) - now_ms env 0)))
        (seq 0 n).
Proof.
  intros Hws Hfail Hret Hacc Hstop Hfuel.
  replace fuel with (n + S (fuel - S n))%nat by lia.
  rewrite call_fresh, (failing_attempts st ws ror wrap fn _ n Hws Hfail Hstop).
  rewrite (pass_value_accepted st ws None ror wrap None fn _ _
             (mkWorld n (S n) 0 ([] ++ failed_attempts_log env ws
                                          (now_ms env 0) n))
             v _ Hret Hacc).
  eexists. split; [reflexivity|]. split; [reflexivity|].
  cbn [log]. rewrite !sleeps_app, sleeps_failed_attempts_log.
  cbn. rewrite app_nil_r. reflexivity.
Qed.

(** When the stop strategy lets [n] failed attempts pass and signals
    after the next one, that one ends the call. *)
Lemma call_stops_at st ws ror wrap (fn : Operation) (n : nat) (e : E)
    (fuel : nat) :
  steady_wait ws = true ->
  (forall i, (i < n)%nat ->
     exists e', fn i = Raises e' /\ isinstance e' Exception = true) ->
  fn n = Raises e -> isinstance e Exception = true ->
  (forall i, (i < n)%nat ->
     should_stop (plain st ws ror wrap) (Z.of_nat (S i))
       (now_ms env (S i) - now_ms env 0) = false) ->
  should_stop (plain st ws ror wrap) (Z.of_nat (S n))
    (now_ms env (S n) - now_ms env 0) = true ->
  (n < fuel)%nat ->
  call env (plain st ws ror wrap) fn fuel World0
  = Some (Raise (if wrap
                 then RetryError (mkAttempt (Failure e) (Z.of_nat (S n)))
                 else Reraise e),
          mkWorld (S n) (S (S n)) 0
            (failed_attempts_log env ws (now_ms env 0) n
             ++ [EvInvoke (Z.of_nat (S n)); EvRetryOnException])).
Proof.
  intros Hws Hfail He Hexc Hpass Hstop Hfuel.
  replace fuel with (n + S (fuel - S n))%nat by lia.
  rewrite call_fresh, (failing_attempts st ws ror wrap fn _ n Hws Hfail Hpass).
  rewrite (pass_exception_stops st ws ror wrap fn _ _
             (mkWorld n (S n) 0 ([] ++ failed_attempts_log env ws
                                          (now_ms env 0) n))
             e _ He Hexc Hstop).
  reflexivity.
Qed.

(** X5: take a controller with [stop_after_attempt m], the default
    [retry_on_exception], no hooks, no jitter and a steady wait (as in
    X4), and an operation that always raises [e], an instance of
    [Exception].  The call ends after exactly max(1, m) runs, with one
    sleep between two runs: in unwrapped mode it raises [e] again; in
    wrapped mode it raises a [RetryError] whose last attempt holds [e]
    and the attempt number max(1, m).  A limit of 0 or less still runs
    the operation once. *)
Theorem call_gives_up_after_max_attempts (m : Z) ws ror wrap
    (fn : Operation) (e : E) (fuel : nat) :
  steady_wait ws = true ->
  (forall i, fn i = Raises e) -> isinstance e Exception = true ->
  (Z.to_nat (Z.max 1 m) <= fuel)%nat ->
  exists w,
    call env (plain (Some (stop_after_attempt m)) ws ror wrap) fn fuel World0
    = Some (Raise (if wrap
                   then RetryError (mkAttempt (Failure e) (Z.max 1 m))
                   else Reraise e), w) /\
    invocations w = Z.to_nat (Z.max 1 m) /\
    length (sleeps (log w)) = (Z.to_nat (Z.max 1 m) - 1)%nat.
Proof.
  intros Hws Hfn Hexc Hfuel.
  remember (Z.to_nat (Z.max 1 m) - 1)%nat as n eqn:Hn.
  assert (HN : Z.to_nat (Z.max 1 m) = S n) by lia.
  assert (HZ : Z.max 1 m = Z.of_nat (S n)) by lia.
  rewrite (call_stops_at (Some (stop_after_attempt m)) ws ror wrap fn n e
             fuel Hws).
  - eexists. rewrite HN, HZ. split; [reflexivity|]. split; [reflexivity|].
    cbn [log]. rewrite sleeps_app, sleeps_failed_attempts_log.
    cbn. rewrite app_nil_r, length_map, length_seq. reflexivity.
  - intros i _. exists e. auto.
  - apply Hfn.
  - exact Hexc.
  - intros i Hi. unfold should_stop. cbn [stop Retrying_init stop_call].
    rewrite Z.geb_leb. apply Z.leb_gt. lia.
  - unfold should_stop. cbn [stop Retrying_init stop_call].
    apply Z.geb_le. lia.
  - lia.
Qed.

(** X6: take a controller with [stop_after_delay limit], the default
    [retry_on_exception], no hooks, no jitter and a steady wait (as in
    X4), and an operation that always raises [e], an instance of
    [Exception].  The call ends after the first attempt at whose end the
    clock shows [limit] or more since the start of the call: if that is
    attempt [n + 1], the operation has run exactly [n + 1] times, and
    the call raises [e] again in unwrapped mode and a [RetryError]
    around attempt [n + 1] in wrapped mode. *)
Theorem call_gives_up_after_delay (limit : Z) ws ror wrap (fn : Operation)
    (e : E) (n fuel : nat) :
  steady_wait ws = true ->
  (forall i, fn i = Raises e) -> isinstance e Exception = true ->
  (forall i, (i < n)%nat -> now_ms env (S i) - now_ms env 0 < limit) ->
  limit <= now_ms env (S n) - now_ms env 0 ->
  (n < fuel)%nat ->
  exists w,
    call env (plain (Some (stop_after_delay limit)) ws ror wrap) fn fuel
      World0
    = Some (Raise (if wrap
                   then RetryError (mkAttempt (Failure e) (Z.of_nat (S n)))
                   else Reraise e), w) /\
    invocations w = S n.
Proof.
  intros Hws Hfn Hexc Hbefore Hreached Hfuel.
  rewrite (call_stops_at (Some (stop_after_delay limit)) ws ror wrap fn n e
             fuel Hws).
  - eexists. split; reflexivity.
  - intros i _. exists e. auto.
  - apply Hfn.
  - exact Hexc.
  - intros i Hi. unfold should_stop. cbn [stop Retrying_init stop_call].
    rewrite Z.geb_leb. apply Z.leb_gt. apply Hbefore, Hi.
  - unfold should_stop. cbn [stop Retrying_init stop_call].
    apply Z.geb_le. exact Hreached.
  - exact Hfuel.
Qed.

(** X7: a controller without a stop strategy, with the default
    [retry_on_exception], no hooks, no jitter and a steady wait (as in
    X4) never gives up: while every run raises an instance of
    [Exception], no amount of fuel brings the call to an end. *)
Theorem call_without_stop_never_ends ws ror wrap (fn : Operation) :
  steady_wait ws = true ->
  (forall i, exists e, fn i = Raises e /\ isinstance e Exception = true) ->
  forall fuel, call env (plain None ws ror wrap) fn fuel World0 = None.
Proof.
  intros Hws Hfn fuel.
  replace fuel with (fuel + 0)%nat by lia.
  rewrite call_fresh,
    (failing_attempts None ws ror wrap fn _ fuel Hws); auto.
Qed.

End ControllerPasses.

(** ** The controller, for every operation *)

Section ControllerInvariants.

Context {V E Cls : Type} `{PyExc E Cls}.
Variable env : Env.

Lemma invoke_inv (fn : Operation) (k : Z) (w w' : World)
    (r : Result (V:=V) (E:=E) Attempt) :
  invoke fn k w = (r, w') ->
  invocations w' = S (invocations w) /\
  match r with
  | Ok a => attempt_number a = k
  | Raise r' => forall a, r' <> RetryError a
  end.
Proof.
  unfold invoke. destruct (fn (invocations w)) as [v|e].
  - intros [= <- <-]. split; reflexivity.
  - destruct (isinstance e Exception); intros [= <- <-];
      (split; [reflexivity|]); [reflexivity | discriminate].
Qed.

Lemma MaybeReject_call_inv (s : _MaybeReject) (a : Attempt (V:=V) (E:=E))
    (w : World) :
  exists b w',
    MaybeReject_call s a w = (Ok b, w') /\ invocations w' = invocations w.
Proof.
  unfold MaybeReject_call.
  destruct (value a);
    [destruct (retry_on_result s) | destruct (retry_on_exception s)];
    eexists; eexists; split; reflexivity.
Qed.

Lemma compute_sleep_inv (self : Retrying (V:=V) (E:=E)) (k d : Z)
    (w w' : World) (r : Result Q) :
  compute_sleep env self k d w = (r, w') ->
  invocations w' = invocations w /\ forall a, r <> Raise (RetryError a).
Proof.
  unfold compute_sleep, base_wait, add_jitter, wait_call, random_unit,
    random_draw, bind, ret, raise, wait_random_call.
  destruct (wait self) as [[wt|a b|s i m|mult m]|];
    try destruct (randint a b _);
    destruct (_wait_jitter_max self) as [jm|];
    try destruct (Qeq_bool jm 0);
    intros [= <- <-]; split; try reflexivity; discriminate.
Qed.

Lemma time_sleep_inv (ms : Q) (w w' : World)
    (r : Result (V:=V) (E:=E) unit) :
  time_sleep env ms w = (r, w') ->
  invocations w' = invocations w /\ forall a, r <> Raise (RetryError a).
Proof.
  unfold time_sleep, tell, raise.
  destruct (Qle_bool 0 ms); [destruct (Qle_bool ms (sleep_max env))|];
    intros [= <- <-]; split; try reflexivity; discriminate.
Qed.

Lemma run_hook_ok (h : option Hook) (k : Z) (w : World) :
  exists w1,
    run_hook (V:=V) (E:=E) h k w = (Ok tt, w1) /\ (h = None -> w1 = w).
Proof.
  destruct h as [f|]; eexists; (split; [reflexivity|]);
    [discriminate | reflexivity].
Qed.

Lemma on_rejected_inv (self : Retrying (V:=V) (E:=E)) (start k : Z)
    (a : Attempt) (w w' : World) (r : Result unit) :
  on_rejected env self start k a w = (r, w') ->
  (forall u, r = Ok u -> exists d, should_stop self k d = false) /\
  (forall a', r = Raise (RetryError a') -> a' = a) /\
  (_after_attempts self = None -> invocations w' = invocations w).
Proof.
  unfold on_rejected, bind at 1.
  destruct (run_hook_ok (_after_attempts self) k w) as (w1 & Hrun & Hw1).
  rewrite Hrun. unfold bind at 1, time_ms.
  destruct (should_stop self k (now_ms env (clock_reads w1) - start))
    eqn:Hstop.
  - unfold raise, stop_error, Attempt_get, has_exception.
    intros [= <- <-]. split; [discriminate|]. split.
    + destruct (_wrap_exception self), (value a); simpl;
        intros a' [= <-]; reflexivity.
    + intros Hnone. rewrite (Hw1 Hnone). reflexivity.
  - unfold bind.
    destruct (compute_sleep env self k _ (bump_clock w1)) as [[q|r0] w2]
      eqn:Hsleep;
      destruct (compute_sleep_inv _ _ _ _ _ _ Hsleep) as (Hinv & Hno).
    + destruct (time_sleep env q w2) as [r1 w3] eqn:Hts.
      destruct (time_sleep_inv _ _ _ _ Hts) as (Hinv' & Hno').
      intros [= <- <-]. split; [eauto|]. split.
      * intros a' ->. exfalso. eapply Hno'. reflexivity.
      * intros Hnone. rewrite Hinv', Hinv, (Hw1 Hnone). reflexivity.
    + intros [= <- <-]. split; [discriminate|]. split.
      * intros a' [= ->]. exfalso. eapply Hno. reflexivity.
      * intros Hnone. rewrite Hinv, (Hw1 Hnone). reflexivity.
Qed.

(** A pass that loops was not stopped; a [RetryError] it raises carries
    the current attempt number; without hooks it runs the operation
    once. *)
Lemma iteration_inv (self : Retrying) (fn : Operation) (start k : Z)
    (w w' : World) (r : Result (V:=V) (E:=E) (option V)) :
  iteration env self fn start k w = (r, w') ->
  (r = Ok None -> exists d, should_stop self k d = false) /\
  (forall a, r = Raise (RetryError a) -> attempt_number a = k) /\
  (_before_attempts self = None -> _after_attempts self = None ->
   invocations w' = S (invocations w)).
Proof.
  unfold iteration, bind at 1.
  destruct (run_hook_ok (_before_attempts self) k w) as (w0 & Hrun & Hw0).
  rewrite Hrun. unfold bind at 1.
  destruct (invoke fn k w0) as [[a|r0] w1] eqn:Hinv;
    destruct (invoke_inv _ _ _ _ _ Hinv) as (Hcount & Hnum).
  - unfold bind at 1.
    destruct (MaybeReject_call_inv (should_reject self) a w1)
      as (b & w2 & Hrej & Hcount2).
    rewrite Hrej. destruct b; simpl.
    + unfold bind, ret.
      destruct (on_rejected env self start k a w2) as [[u|r1] w3] eqn:Hon;
        destruct (on_rejected_inv _ _ _ _ _ _ _ Hon) as (Hns & Hre & Hc);
        intros [= <- <-].
      * split; [eauto|]. split; [discriminate|].
        intros Hb Ha. rewrite (Hc Ha), Hcount2, Hcount, (Hw0 Hb).
        reflexivity.
      * split; [discriminate|]. split.
        -- intros a' [= ->]. rewrite (Hre a' eq_refl). exact Hnum.
        -- intros Hb Ha. rewrite (Hc Ha), Hcount2, Hcount, (Hw0 Hb).
           reflexivity.
    + unfold bind, lift, ret, Attempt_get.
      destruct (value a) as [v|e]; [|destruct (_wrap_exception self)];
        intros [= <- <-]; (split; [discriminate|]); split;
        try discriminate;
        try (intros Hb Ha; rewrite Hcount2, Hcount, (Hw0 Hb); reflexivity).
      intros a' [= <-]. exact Hnum.
  - intros [= <- <-]. split; [discriminate|]. split.
    + intros a' [= ->]. exfalso. eapply Hnum. reflexivity.
    + intros Hb Ha. rewrite Hcount, (Hw0 Hb). reflexivity.
Qed.

Lemma loop_ends_with_stop_after_attempt (self : Retrying (V:=V) (E:=E))
    (fn : Operation) (start m : Z) :
  stop self = Some (stop_after_attempt m) ->
  forall (fuel : nat) (k : Z) (w : World),
    (1 <= fuel)%nat -> m - k < Z.of_nat fuel ->
    loop env self fn start fuel k w <> None.
Proof.
  intros Hstop. induction fuel as [|fuel IH]; intros k w Hone Hfuel; [lia|].
  cbn [loop].
  destruct (iteration env self fn start k w) as [[[v|]|r] w'] eqn:Hit;
    try discriminate.
  destruct (iteration_inv _ _ _ _ _ _ _ Hit) as (Hnot & _).
  destruct (Hnot eq_refl) as (d & Hd).
  unfold should_stop in Hd. rewrite Hstop in Hd. cbn [stop_call] in Hd.
  rewrite Z.geb_leb in Hd. apply Z.leb_gt in Hd.
  apply IH; lia.
Qed.

(** X8: with [stop_after_attempt m] every call ends, whatever the
    operation, the predicates, the wait strategy, the jitter and the
    hooks are: max(1, m) passes of the loop suffice. *)
Theorem call_ends_with_stop_after_attempt (self : Retrying (V:=V) (E:=E))
    (fn : Operation) (m : Z) (fuel : nat) (w : World) :
  stop self = Some (stop_after_attempt m) ->
  (Z.to_nat (Z.max 1 m) <= fuel)%nat ->
  call env self fn fuel w <> None.
Proof.
  intros Hstop Hfuel. unfold call, time_ms.
  apply loop_ends_with_stop_after_attempt with (m := m); [exact Hstop| |]; lia.
Qed.

Lemma loop_counts_runs (self : Retrying (V:=V) (E:=E)) (fn : Operation)
    (start : Z) :
  _before_attempts self = None -> _after_attempts self = None ->
  forall (fuel : nat) (k : Z) (w w' : World) (r : Result V),
    Z.of_nat (invocations w) = k - 1 ->
    loop env self fn start fuel k w = Some (r, w') ->
    k <= Z.of_nat (invocations w') /\
    (forall a, r = Raise (RetryError a) ->
       attempt_number a = Z.of_nat (invocations w')) /\
    (forall m, stop self = Some (stop_after_attempt m) ->
       Z.of_nat (invocations w') <= Z.max k m).
Proof.
  intros Hb Ha. induction fuel as [|fuel IH]; intros k w w' r Hk;
    [discriminate|].
  cbn [loop].
  destruct (iteration env self fn start k w) as [[[v|]|r0] w1] eqn:Hit;
    destruct (iteration_inv _ _ _ _ _ _ _ Hit) as (Hnot & Hre & Hcount);
    specialize (Hcount Hb Ha).
  - intros [= <- <-]. split; [lia|]. split; [discriminate | lia].
  - intros Hloop.
    destruct (IH (k + 1) w1 w' r ltac:(lia) Hloop) as (Hle & Hnum & Hmax).
    split; [lia|]. split; [exact Hnum|].
    intros m Hstop. specialize (Hmax m Hstop).
    destruct (Hnot eq_refl) as (d & Hd).
    unfold should_stop in Hd. rewrite Hstop in Hd. cbn [stop_call] in Hd.
    rewrite Z.geb_leb in Hd. apply Z.leb_gt in Hd. lia.
  - intros [= <- <-]. split; [lia|]. split; [|lia].
    intros a [= ->]. rewrite (Hre a eq_refl). lia.
Qed.

(** X9: when the call of a controller without hooks ends, the operation
    has run at least once; and under [stop_after_attempt m] it has run
    at most max(1, m) times, whatever the operation, the predicates, the
    wait strategy and the jitter are. *)
Theorem call_counts_runs (self : Retrying (V:=V) (E:=E)) (fn : Operation)
    (fuel : nat) (r : Result V) (w : World) :
  _before_attempts self = None -> _after_attempts self = None ->
  call env self fn fuel World0 = Some (r, w) ->
  (1 <= invocations w)%nat /\
  (forall m, stop self = Some (stop_after_attempt m) ->
     Z.of_nat (invocations w) <= Z.max 1 m).
Proof.
  intros Hb Ha. unfold call, time_ms. intros Hloop.
  destruct (loop_counts_runs self fn _ Hb Ha fuel 1 (bump_clock World0) w r
              eq_refl Hloop) as (Hle & _ & Hmax).
  split; [lia | exact Hmax].
Qed.

(** X10: with a tuple of classes as [retry_on_exception], an exception
    that is an instance of none of them is not retried: the first run
    ends the call, with no clock reading and no sleep, raising the
    exception itself in unwrapped mode and a [RetryError] around it in
    wrapped mode. *)
Theorem call_lets_unlisted_exception_through st ws (ts : list Cls)
    (ror : option (V -> bool)) wrap jm (fn : Operation) (e : E)
    (fuel : nat) :
  fn 0%nat = Raises e -> isinstance e Exception = true ->
  existsb (isinstance e) ts = false ->
  call env (Retrying_init st ws (Some (ExcTypes ts)) ror wrap jm None None)
    fn (S fuel) World0
  = Some (Raise (if wrap then RetryError (mkAttempt (Failure e) 1)
                 else Reraise e),
          mkWorld 1 1 0 [EvInvoke 1; EvRetryOnException]).
Proof.
  intros Hfn Hexc Hts. unfold call, time_ms. cbn [loop].
  unfold iteration, bind, run_hook, ret, invoke.
  cbn [_before_attempts Retrying_init]. cbn [invocations bump_clock World0].
  rewrite Hfn, Hexc. cbn. unfold _retry_if_exception_of_type.
  rewrite Hts. cbn. destruct wrap; reflexivity.
Qed.

(** X11: reversed bounds of [wait_random] are not refused when the
    controller is built.  A first run whose value is accepted returns it
    as if nothing were wrong; after a first run that is rejected and not
    stopped, the empty range makes the wait itself fail, which ends the
    call after that one run, without sleeping. *)
Theorem call_reversed_random_bounds st (a b : Z)
    (ror : option (V -> bool)) wrap jm (fn : Operation (V:=V) (E:=E))
    (fuel : nat) :
  b < a ->
  (forall v, fn 0%nat = Returns v ->
     match ror with Some p => p v | None => false end = false ->
     call env (Retrying_init st (Some (wait_random a b)) None ror wrap jm
                 None None) fn (S fuel) World0
     = Some (Ok v, mkWorld 1 1 0 [EvInvoke 1; EvRetryOnResult])) /\
  (forall e, fn 0%nat = Raises e -> isinstance e Exception = true ->
     should_stop (Retrying_init (V:=V) (E:=E) st (Some (wait_random a b))
                    None ror wrap jm None None) 1
       (now_ms env 1 - now_ms env 0) = false ->
     call env (Retrying_init st (Some (wait_random a b)) None ror wrap jm
                 None None) fn (S fuel) World0
     = Some (Raise EmptyRange,
             mkWorld 1 2 1 [EvInvoke 1; EvRetryOnException])).
Proof.
  intros Hab. split.
  - intros v Hfn Hacc. unfold call, time_ms.
    apply (pass_value_accepted env st (Some (wait_random a b)) None ror wrap
             jm fn (now_ms env 0) 1 (mkWorld 0 1 0 []) v fuel Hfn Hacc).
  - intros e Hfn Hexc Hstop. unfold call, time_ms. cbn [loop].
    unfold iteration, bind, run_hook, ret, invoke.
    cbn [_before_attempts Retrying_init]. cbn [invocations bump_clock World0].
    rewrite Hfn, Hexc. cbn -[should_stop Z.sub].
    unfold on_rejected, bind, run_hook, ret, time_ms.
    cbn [_after_attempts Retrying_init clock_reads record bump_invocations
         bump_clock invocations draws log].
    rewrite Hstop.
    unfold compute_sleep, base_wait, bind, wait_call, bind, random_draw,
      wait_random_call, randint.
    cbn [wait Retrying_init].
    assert (Hgt : (a >? b) = true) by (apply Z.gtb_lt; lia).
    rewrite Hgt. reflexivity.
Qed.

(** The float jitter lies between 0 and its bound. *)
Lemma jitter_range (fl : Q -> Q) (u : Q) (j : Z) :
  float_laws fl -> (0 <= u < 1)%Q ->
  (j < 0 -> (fl (u * fl (inject_Z j)) <= 0)%Q) /\
  (0 < j -> Z.abs j <= 2 ^ 53 ->
   (0 <= fl (u * fl (inject_Z j)) <= inject_Z j)%Q).
Proof.
  intros [Hmono Hint] [Hu0 Hu1].
  assert (Hzero : (fl 0 == 0)%Q) by (apply (Hint 0); simpl; lia).
  split.
  - intros Hj.
    assert (Hf : (fl (inject_Z j) <= 0)%Q).
    { rewrite <- Hzero. apply Hmono. change 0%Q with (inject_Z 0).
      rewrite <- Zle_Qle. lia. }
    assert (Hprod : (u * fl (inject_Z j) <= 0)%Q).
    { assert (0 <= u * - fl (inject_Z j))%Q
        by (apply Qmult_le_0_compat; lra).
      assert (u * - fl (inject_Z j) == - (u * fl (inject_Z j)))%Q by ring.
      lra. }
    rewrite <- Hzero. apply Hmono. exact Hprod.
  - intros Hj Hbound. pose proof (Hint j Hbound) as Hf.
    assert (Hjq : (0 < inject_Z j)%Q)
      by (change 0%Q with (inject_Z 0); rewrite <- Zlt_Qlt; exact Hj).
    assert (Hlo : (0 <= u * fl (inject_Z j))%Q)
      by (apply Qmult_le_0_compat; lra).
    assert (Hhi : (u * fl (inject_Z j) <= inject_Z j)%Q).
    { assert (u * fl (inject_Z j) <= 1 * fl (inject_Z j))%Q
        by (apply Qmult_le_compat_r; lra).
      lra. }
    split.
    + rewrite <- Hzero. apply Hmono. exact Hlo.
    + rewrite <- Hf at 2. apply Hmono. exact Hhi.
Qed.

(** X12: when a rejected attempt of a controller with the integer
    jitter bound [j], not 0, is followed by a sleep, one draw u was
    taken, and for a rounding with the laws of floats and draws with
    0 <= u < 1: a negative [j] adds nothing, the sleep is the wait
    strategy's output n; a positive [j] with n, j and n + j at most 2^53
    in magnitude gives a sleep from n to n + j, both ends included. *)
Theorem jitter_within_bound (self : Retrying (V:=V) (E:=E)) (start k : Z)
    (att : Attempt) (w w' : World) (j : Z) :
  float_laws (float_round env) ->
  (forall i, (0 <= random_random env i < 1)%Q) ->
  _wait_jitter_max self = Some (inject_Z j) -> j <> 0 ->
  on_rejected env self start k att w = (Ok tt, w') ->
  let w1 := snd (run_hook (V:=V) (E:=E) (_after_attempts self) k w) in
  let delay := now_ms env (clock_reads w1) - start in
  exists (n : Z) (sleep : Q) (w2 : World),
    base_wait env self k delay (bump_clock w1) = (Ok (inject_Z n), w2) /\
    log w' = log w1 ++ [EvSleep sleep] /\
    draws w' = S (draws w2) /\
    (j < 0 -> sleep = inject_Z n) /\
    (0 < j -> Z.abs j <= 2 ^ 53 -> Z.abs n <= 2 ^ 53 ->
     Z.abs (n + j) <= 2 ^ 53 ->
     (inject_Z n <= sleep <= inject_Z (n + j))%Q) /\
    (forall (fn : Operation) (fuel : nat) (w0 wi : World),
       invoke fn k
         (snd (run_hook (V:=V) (E:=E) (_before_attempts self) k w0))
       = (Ok att, wi) ->
       MaybeReject_call (should_reject self) att wi = (Ok true, w) ->
       loop env self fn start (S fuel) k w0
       = loop env self fn start fuel (k + 1) w').
Proof.
  intros Hlaws Hdraw Hjm Hnz Hon w1 delay.
  assert (Hloop : forall (fn : Operation) (fuel : nat) (w0 wi : World),
             invoke fn k
               (snd (run_hook (V:=V) (E:=E) (_before_attempts self) k w0))
             = (Ok att, wi) ->
             MaybeReject_call (should_reject self) att wi = (Ok true, w) ->
             loop env self fn start (S fuel) k w0
             = loop env self fn start fuel (k + 1) w').
  { intros fn fuel w0 wi Hinv Hrej.
    rewrite (loop_rejected_pass env self fn start k fuel att w0 wi w
               Hinv Hrej), Hon. reflexivity. }
  revert Hloop.
  destruct (on_rejected_slept env _ _ _ _ _ _ Hon)
    as (_ & sleep & w3 & Hsleep & ->).
  fold w1 in Hsleep. fold delay in Hsleep. revert Hsleep.
  unfold compute_sleep, bind.
  destruct (base_wait env self k delay (bump_clock w1)) as [[q|r] w2]
    eqn:Hbase; [|discriminate].
  destruct (base_wait_int env _ _ _ _ _ _ Hbase) as (Hlog & n & ->).
  unfold add_jitter, bind, random_unit, ret. rewrite Hjm.
  assert (Hz : Qeq_bool (inject_Z j) 0 = false).
  { destruct (Qeq_bool (inject_Z j) 0) eqn:Hq; [|reflexivity].
    apply Qeq_bool_iff in Hq. unfold Qeq, inject_Z in Hq. simpl in Hq. lia. }
  rewrite Hz. intros [= <- <-] Hloop.
  exists n. eexists. exists w2. split; [reflexivity|].
  split; [cbn [log record bump_draws]; rewrite Hlog; reflexivity|].
  split; [reflexivity|].
  cut ((j < 0 -> add_max0 (float_round env) (inject_Z n)
                   (float_round env
                      (random_random env (draws w2)
                       * float_round env (inject_Z j))%Q) = inject_Z n) /\
       (0 < j -> Z.abs j <= 2 ^ 53 -> Z.abs n <= 2 ^ 53 ->
        Z.abs (n + j) <= 2 ^ 53 ->
        (inject_Z n
         <= add_max0 (float_round env) (inject_Z n)
              (float_round env
                 (random_random env (draws w2)
                  * float_round env (inject_Z j))%Q)
         <= inject_Z (n + j))%Q));
    [intros [Hn Hp]; split; [exact Hn | split; [exact Hp | exact Hloop]]|].
  clear Hloop.
  destruct (jitter_range (float_round env) (random_random env (draws w2)) j
              Hlaws (Hdraw _)) as (Hneg & Hpos).
  set (jitter := float_round env
                   (random_random env (draws w2)
                    * float_round env (inject_Z j))%Q) in *.
  split.
  - intros Hj. unfold add_max0.
    apply Qle_bool_iff in Hneg; [|exact Hj]. rewrite Hneg. reflexivity.
  - intros Hj Hjb Hnb Hsum. destruct (Hpos Hj Hjb) as (Hlo & Hhi).
    split; [apply add_max0_lower; assumption|].
    destruct Hlaws as [Hmono Hint]. unfold add_max0.
    rewrite inject_Z_plus in *.
    destruct (Qle_bool jitter 0).
    + assert (0 < inject_Z j)%Q
        by (change 0%Q with (inject_Z 0); rewrite <- Zlt_Qlt; exact Hj).
      lra.
    + pose proof (Hint n Hnb) as Hn. pose proof (Hint (n + j) Hsum) as Hs.
      rewrite inject_Z_plus in Hs. rewrite <- Hs. apply Hmono. lra.
Qed.

(** X13: a bare [@retry] runs the function through [Retrying()]: no stop
    strategy and no wait.  While the function raises instances of
    [Exception] it is run again at once, any number of times; when run
    [n + 1] returns, that value is returned after exactly [n + 1] runs
    and [n] sleeps of 0; and if every run raises, the wrapped function
    never returns. *)
Theorem bare_retry_runs_until_success (fn : Operation (V:=V) (E:=E)) :
  (forall (n : nat) (v : V) (fuel : nat),
     (forall i, (i < n)%nat ->
        exists e, fn i = Raises e /\ isinstance e Exception = true) ->
     fn n = Returns v -> (n < fuel)%nat ->
     exists w,
       wrap_simple env fn fuel World0 = Some (Ok v, w) /\
       invocations w = S n /\ sleeps (log w) = repeat 0%Q n) /\
  ((forall i, exists e, fn i = Raises e /\ isinstance e Exception = true) ->
   forall fuel, wrap_simple env fn fuel World0 = None).
Proof.
  unfold wrap_simple, Retrying_defaults, wait_none. split.
  - intros n v fuel Hfail Hret Hfuel.
    replace fuel with (n + S (fuel - S n))%nat by lia.
    rewrite call_fresh,
      (failing_attempts env None (Some (wait_fixed 0)) None false fn
         (now_ms env 0) n eq_refl Hfail (fun _ _ => eq_refl)).
    rewrite (pass_value_accepted env None (Some (wait_fixed 0)) None None
               false None fn _ _
               (mkWorld n (S n) 0
                  ([] ++ failed_attempts_log env (Some (wait_fixed 0))
                           (now_ms env 0) n))
               v _ Hret eq_refl).
    eexists. split; [reflexivity|]. split; [reflexivity|].
    cbn [log]. rewrite !sleeps_app, sleeps_failed_attempts_log.
    cbn [sleeps steady_delay]. unfold wait_fixed_call.
    rewrite map_const, length_seq, app_nil_r. reflexivity.
  - intros Hfail fuel.
    replace fuel with (fuel + 0)%nat by lia.
    rewrite call_fresh,
      (failing_attempts env None (Some (wait_fixed 0)) None false fn
         (now_ms env 0) fuel eq_refl); auto.
Qed.

(** X14: a negative [wait_fixed] is not clamped by the controller: after
    a first run that is rejected and not stopped, the negative duration
    reaches [time.sleep], whose refusal ends the call after that one
    run. *)
Theorem call_negative_fixed_wait st (d : Z) (ror : option (V -> bool)) wrap
    (fn : Operation (V:=V) (E:=E)) (e : E) (fuel : nat) :
  d < 0 ->
  fn 0%nat = Raises e -> isinstance e Exception = true ->
  should_stop (Retrying_init (V:=V) (E:=E) st (Some (wait_fixed d)) None ror
                 wrap None None None) 1
    (now_ms env 1 - now_ms env 0) = false ->
  call env (Retrying_init st (Some (wait_fixed d)) None ror wrap None
              None None) fn (S fuel) World0
  = Some (Raise NegativeSleep,
          mkWorld 1 2 0 [EvInvoke 1; EvRetryOnException]).
Proof.
  intros Hd Hfn Hexc Hstop. unfold call, time_ms. cbn [loop].
  unfold iteration, bind, run_hook, ret, invoke.
  cbn [_before_attempts Retrying_init]. cbn [invocations bump_clock World0].
  rewrite Hfn, Hexc. cbn -[should_stop Z.sub].
  unfold on_rejected, bind, run_hook, ret, time_ms.
  cbn [_after_attempts Retrying_init clock_reads record bump_invocations
       bump_clock invocations draws log].
  rewrite Hstop.
  unfold compute_sleep, base_wait, bind, wait_call, ret, add_jitter,
    wait_fixed_call, time_sleep.
  cbn [wait _wait_jitter_max Retrying_init]. unfold ret. cbv beta iota.
  assert (Hneg : Qle_bool 0 (inject_Z d) = false).
  { destruct (Qle_bool 0 (inject_Z d)) eqn:Hq; [|reflexivity].
    apply Qle_bool_iff in Hq. unfold Qle, inject_Z in Hq. simpl in Hq. lia. }
  rewrite Hneg. reflexivity.
Qed.

End ControllerInvariants.

(** ** The further properties at concrete inputs *)

Lemma raises_n_then_fails (n : nat) (e : PyClass) (v : Z) :
  isinstance e Exception = true ->
  forall i, (i < n)%nat ->
    exists e', raises_n_then n e v i = Raises e' /\
               isinstance e' Exception = true.
Proof.
  intros He i Hi. exists e. unfold raises_n_then.
  destruct (Nat.ltb_spec i n); [auto | lia].
Defined.

(** X4 on four [IOError]s followed by 42, under exponential backoff:
    the sleeps are 200, 400, 800 and the cap 1000. *)
Lemma call_retries_until_success_witness :
  exists w,
    call env0
      (Retrying_init (Some (stop_after_attempt 10)) backoff_1000 None None
         false None None None)
      (raises_n_then 4 IOError 42) 5 World0 = Some (Ok 42, w) /\
    invocations w = 5%nat /\
    sleeps (log w) = [200 # 1; 400 # 1; 800 # 1; 1000 # 1].
Proof.
  apply (call_retries_until_success env0 (Some (stop_after_attempt 10))
           backoff_1000 None false (raises_n_then 4 IOError 42) 4 42 5).
  - reflexivity.
  - apply raises_n_then_fails. reflexivity.
  - reflexivity.
  - reflexivity.
  - intros i Hi. unfold should_stop. cbn [stop Retrying_init stop_call].
    rewrite Z.geb_leb. apply Z.leb_gt. lia.
  - lia.
Defined.

(** X5 with a limit of 0, in wrapped mode: one run, then [RetryError]. *)
Lemma call_gives_up_after_max_attempts_witness :
  exists w,
    call env0
      (Retrying_init (Some (stop_after_attempt 0)) backoff_1000 None None
         true None None None)
      (always_raises ErrorX) 1 World0
    = Some (Raise (RetryError (mkAttempt (Failure ErrorX) 1)), w) /\
    invocations w = 1%nat /\
    length (sleeps (log w)) = 0%nat.
Proof.
  apply (call_gives_up_after_max_attempts env0 0 backoff_1000 None true
           (always_raises ErrorX) ErrorX 1);
    [reflexivity | reflexivity | reflexivity | vm_compute; lia].
Defined.

(** X6 with a limit of 25 ms on a clock that advances 10 ms per reading:
    the third attempt is the last. *)
Lemma call_gives_up_after_delay_witness :
  exists w,
    call env0
      (Retrying_init (Some (stop_after_delay 25)) (Some wait_none) None None
         false None None None)
      (always_raises ErrorX) 3 World0
    = Some (Raise (Reraise ErrorX), w) /\
    invocations w = 3%nat.
Proof.
  apply (call_gives_up_after_delay env0 25 (Some wait_none) None false
           (always_raises ErrorX) ErrorX 2 3).
  - reflexivity.
  - reflexivity.
  - reflexivity.
  - intros i Hi. cbn [now_ms env0]. lia.
  - vm_compute. discriminate.
  - lia.
Defined.

(** X7 on an operation that always raises [IOError], with 40 passes. *)
Lemma call_without_stop_never_ends_witness :
  call env0
    (Retrying_init None backoff_1000 None None false None None None)
    (always_raises IOError) 40 World0 = None.
Proof.
  apply (call_without_stop_never_ends env0 backoff_1000 None false
           (always_raises IOError)).
  - reflexivity.
  - intros i. exists IOError. split; reflexivity.
Defined.

(** X8 on a controller with hooks, jitter and a random wait. *)
Lemma call_ends_with_stop_after_attempt_witness :
  call env0
    (Retrying_init (Some (stop_after_attempt 3)) (Some (wait_random 5 9))
       None None true (Some 50%Q) (Some log_hook) (Some log_hook))
    (always_raises IOError) 3 World0 <> None.
Proof.
  apply (call_ends_with_stop_after_attempt env0 _ _ 3);
    [reflexivity | vm_compute; lia].
Defined.

(** X9 on the controller that retries while the result is 0. *)
Lemma call_counts_runs_witness :
  (1 <= 2)%nat /\
  (forall m, stop retry_while_zero = Some (stop_after_attempt m) ->
     2 <= Z.max 1 m).
Proof.
  apply (call_counts_runs env0 retry_while_zero (always_returns 0) 5
           (Raise (RetryError (mkAttempt (Success 0) 2)))
           (mkWorld 2 3 0 [EvInvoke 1; EvRetryOnResult; EvSleep 0;
                           EvInvoke 2; EvRetryOnResult]));
    reflexivity.
Defined.

(** X10 on a controller that retries [IOError] only, met by [ErrorX]. *)
Lemma call_lets_unlisted_exception_through_witness :
  call env0
    (Retrying_init (Some (stop_after_attempt 3)) backoff_1000
       (Some (ExcTypes [IOError])) None false None None None)
    (always_raises ErrorX) 3 World0
  = Some (Raise (Reraise ErrorX),
          mkWorld 1 1 0 [EvInvoke 1; EvRetryOnException]).
Proof.
  apply (call_lets_unlisted_exception_through env0
           (Some (stop_after_attempt 3)) backoff_1000 [IOError] None false
           None (always_raises ErrorX) ErrorX 2); reflexivity.
Defined.

(** X11 on [wait_random 9 5]. *)
Lemma call_reversed_random_bounds_witness :
  call env0
    (Retrying_init None (Some (wait_random 9 5)) None None false None
       None None) (always_returns 7) 1 World0
  = Some (Ok 7, mkWorld 1 1 0 [EvInvoke 1; EvRetryOnResult]) /\
  call env0
    (Retrying_init None (Some (wait_random 9 5)) None None false None
       None None) (always_raises IOError) 1 World0
  = Some (Raise EmptyRange, mkWorld 1 2 1 [EvInvoke 1; EvRetryOnException]).
Proof.
  assert (Hab : 5 < 9) by lia.
  split.
  - apply (proj1 (call_reversed_random_bounds env0 None 9 5 None false None
                    (always_returns 7) 0 Hab) 7); reflexivity.
  - apply (proj2 (call_reversed_random_bounds env0 None 9 5 None false None
                    (always_raises IOError) 0 Hab) IOError); reflexivity.
Defined.

(** X12 on a fixed wait of 100 with a jitter bound of 50 and a draw of
    one half: the sleep of 125 lies between 100 and 150, and the loop
    goes on to attempt 2. *)
Lemma jitter_within_bound_witness :
  exists (n : Z) (sleep : Q) (w2 : World),
    base_wait env0 fixed_100_jitter_50 1 10
      (mkWorld 1 2 0 [EvInvoke 1; EvRetryOnException])
    = (Ok (inject_Z n), w2) /\
    [EvInvoke 1; EvRetryOnException; EvSleep (250 # 2)]
    = [EvInvoke 1; EvRetryOnException] ++ [EvSleep sleep] /\
    1%nat = S (draws w2) /\
    (inject_Z n <= sleep <= inject_Z (n + 50))%Q /\
    loop env0 fixed_100_jitter_50 (always_raises IOError) 1000 4 1
      (mkWorld 0 1 0 [])
    = loop env0 fixed_100_jitter_50 (always_raises IOError) 1000 3 2
        (mkWorld 1 2 1 [EvInvoke 1; EvRetryOnException; EvSleep (250 # 2)]).
Proof.
  assert (Hdraw : forall i, (0 <= random_random env0 i < 1)%Q)
    by (intros i; cbn [random_random env0];
        split; [discriminate | reflexivity]).
  assert (Hnz : 50 <> 0) by lia.
  destruct (jitter_within_bound env0 fixed_100_jitter_50 1000 1
              (mkAttempt (Failure IOError) 1)
              (mkWorld 1 1 0 [EvInvoke 1; EvRetryOnException])
              (mkWorld 1 2 1
                 [EvInvoke 1; EvRetryOnException; EvSleep (250 # 2)])
              50 float_laws_exact Hdraw eq_refl Hnz eq_refl)
    as (n & sleep & w2 & Hbase & Hlog & Hdraws & _ & Hpos & Hloop).
  exists n, sleep, w2.
  split; [exact Hbase|]. split; [exact Hlog|]. split; [exact Hdraws|].
  assert (Hn : n = 100)
    by (vm_compute in Hbase; injection Hbase as Hq _; congruence).
  split.
  - apply Hpos; subst n; vm_compute; congruence.
  - exact (Hloop (always_raises IOError) 3%nat (mkWorld 0 1 0 [])
             (mkWorld 1 1 0 [EvInvoke 1]) eq_refl eq_refl).
Defined.

(** X13 on two [IOError]s followed by 42, and on [IOError] for ever. *)
Lemma bare_retry_runs_until_success_witness :
  (exists w,
     wrap_simple env0 (raises_n_then 2 IOError 42) 3 World0 = Some (Ok 42, w)
     /\ invocations w = 3%nat /\ sleeps (log w) = [0%Q; 0%Q]) /\
  wrap_simple env0 (always_raises IOError) 30 World0 = None.
Proof.
  split.
  - apply (proj1 (bare_retry_runs_until_success env0
                    (raises_n_then 2 IOError 42)) 2%nat 42 3%nat).
    + apply raises_n_then_fails. reflexivity.
    + reflexivity.
    + lia.
  - apply (proj2 (bare_retry_runs_until_success env0
                    (always_raises IOError))).
    intros i. exists IOError. split; reflexivity.
Defined.

(** X14 on [wait_fixed (-5)]. *)
Lemma call_negative_fixed_wait_witness :
  call env0
    (Retrying_init None (Some (wait_fixed (-5))) None None false None
       None None) (always_raises IOError) 3 World0
  = Some (Raise NegativeSleep, mkWorld 1 2 0 [EvInvoke 1; EvRetryOnException]).
Proof.
  apply (call_negative_fixed_wait env0 None (-5) None false
           (always_raises IOError) IOError 2); [lia | reflexivity ..].
Defined.
